(** * et_presidio: the EstBERT recognizer adapter, the configuration check
      and the Flask request handlers

    A shallow embedding of [presidio_flask_estbert.py] and [app.py].
    Python data (parsed JSON and YAML documents) is a small value type,
    Python exceptions are an error monad, [print] and [logger.error] are
    explicit output state.  The statistical model, the analyzer engine, the
    anonymizer engine, the file system and [str] on floats are outside the
    repository and enter as section variables. *)

From Stdlib Require Import PrimFloat.
From stdpp Require Import base option list strings gmap.

Local Open Scope Z_scope.

(** ** Python values *)

Module Py.

#[local] Set Warnings "-register-all".

(** The values a parsed JSON body or YAML document is made of.  A [dict] is
    kept as the list of its items in insertion order; its keys are strings
    (a YAML key of another type never equals a [str] key, which is all the
    code looks up).  [PyObject] is an instance of a plain class, given by
    the name of the class: such is the [AnalysisExplanation] that the
    analyzer engine puts into a result.  It is true in a condition, is no
    container and has none of the methods the code calls. *)
Inductive pyval :=
| PyNone
| PyBool (b : bool)
| PyInt (z : Z)
| PyFloat (f : float)
| PyStr (s : string)
| PyList (l : list pyval)
| PyDict (d : list (string * pyval))
| PyObject (cls : string).

(** The exceptions the code can meet; all are subclasses of [Exception].
    [Error] is one raised by a collaborator outside the repository (the
    model pipeline, the engines, [open], [yaml.safe_load],
    [request.get_json]) and carries its [str]. *)
Inductive exn :=
| KeyError (key : string)
| TypeError (msg : string)
| AttributeError (msg : string)
| Error (msg : string).

(** [str(e)]: a [KeyError] shows the [repr] of its key. *)
Definition str_exn (e : exn) : string :=
  match e with
  | KeyError k => "'" +:+ k +:+ "'"
  | TypeError m | AttributeError m | Error m => m
  end.

(** A computation that returns or raises. *)
Inductive outcome (A : Type) :=
| Return (a : A)
| Raise (e : exn).
Arguments Return {A} a.
Arguments Raise {A} e.

#[global] Instance outcome_ret : MRet outcome := λ A a, Return a.

#[global] Instance outcome_bind : MBind outcome := λ A B k m,
  match m with
  | Return a => k a
  | Raise e => Raise e
  end.

(** [type(v).__name__] *)
Definition type_name (v : pyval) : string :=
  match v with
  | PyNone => "NoneType"
  | PyBool _ => "bool"
  | PyInt _ => "int"
  | PyFloat _ => "float"
  | PyStr _ => "str"
  | PyList _ => "list"
  | PyDict _ => "dict"
  | PyObject cls => cls
  end.

(** [bool(v)]: the truth value [or], [and], [not] and [if] test. *)
Definition truthy (v : pyval) : bool :=
  match v with
  | PyNone => false
  | PyBool b => b
  | PyInt z => negb (z =? 0)
  | PyFloat f => negb (PrimFloat.eqb f 0%float)
  | PyStr s => negb (String.eqb s "")
  | PyList l => match l with [] => false | _ => true end
  | PyDict d => match d with [] => false | _ => true end
  | PyObject _ => true
  end.

(** *** Strings *)

(** [needle in s] on two strings: [needle] occurs in [s]. *)
Fixpoint contains (s needle : string) : bool :=
  String.prefix needle s ||
  match s with
  | EmptyString => false
  | String _ s' => contains s' needle
  end.

(** [s.replace(old, new)] for a non-empty [old]: the occurrences of [old]
    are replaced left to right, without overlap.  [skip] counts the
    characters of a matched occurrence still to be passed over. *)
Fixpoint replace_from (old new : string) (skip : nat) (s : string) : string :=
  match s with
  | EmptyString => EmptyString
  | String c s' =>
      match skip with
      | S k => replace_from old new k s'
      | O =>
          if String.prefix old s
          then new +:+ replace_from old new (Nat.pred (String.length old)) s'
          else String c (replace_from old new O s')
      end
  end.

(** With an empty [old], [new] is put before every character and at the
    end. *)
Fixpoint intersperse (new s : string) : string :=
  match s with
  | EmptyString => new
  | String c s' => new +:+ String c (intersperse new s')
  end.

Definition replace (s old new : string) : string :=
  match old with
  | EmptyString => intersperse new s
  | _ => replace_from old new O s
  end.

(** *** Dictionaries *)

Definition items := list (string * pyval).

(** [d.get(key)] on the items of a dict. *)
Fixpoint lookup_item {A} (key : string) (d : list (string * A)) : option A :=
  match d with
  | [] => None
  | (k, v) :: d' => if String.eqb k key then Some v else lookup_item key d'
  end.

(** [d[key] = v]: an existing key keeps its place. *)
Fixpoint set_item {A} (key : string) (v : A) (d : list (string * A))
  : list (string * A) :=
  match d with
  | [] => [(key, v)]
  | (k, w) :: d' =>
      if String.eqb k key then (k, v) :: d' else (k, w) :: set_item key v d'
  end.

(** [del d[key]] (a key that is absent stays absent). *)
Fixpoint del_item {A} (key : string) (d : list (string * A))
  : list (string * A) :=
  match d with
  | [] => []
  | (k, w) :: d' =>
      if String.eqb k key then del_item key d' else (k, w) :: del_item key d'
  end.

Definition not_iterable (v : pyval) : exn :=
  TypeError ("argument of type '" +:+ type_name v +:+ "' is not iterable").

Definition no_attribute (v : pyval) (attr : string) : exn :=
  AttributeError
    ("'" +:+ type_name v +:+ "' object has no attribute '" +:+ attr +:+ "'").

Definition is_str (s : string) (v : pyval) : bool :=
  match v with
  | PyStr t => String.eqb t s
  | _ => false
  end.

Definition is_dict (v : pyval) : bool :=
  match v with
  | PyDict _ => true
  | _ => false
  end.

(** [key in v] for a string [key]: a key of a dict, an element of a list, a
    substring of a string; [TypeError] on a value that is no container. *)
Definition py_in (key : string) (v : pyval) : outcome bool :=
  match v with
  | PyDict d => Return (if lookup_item key d is Some _ then true else false)
  | PyList l => Return (existsb (is_str key) l)
  | PyStr s => Return (contains s key)
  | _ => Raise (not_iterable v)
  end.

(** [v[key]] for a string [key]. *)
Definition py_getitem (v : pyval) (key : string) : outcome pyval :=
  match v with
  | PyDict d =>
      match lookup_item key d with
      | Some x => Return x
      | None => Raise (KeyError key)
      end
  | PyList _ => Raise (TypeError "list indices must be integers or slices, not str")
  | PyStr _ => Raise (TypeError "string indices must be integers, not 'str'")
  | _ => Raise (TypeError ("'" +:+ type_name v +:+ "' object is not subscriptable"))
  end.

(** [v.get(key, default)]: only a dict has the method. *)
Definition py_get (v : pyval) (key : string) (dflt : pyval) : outcome pyval :=
  match v with
  | PyDict d => Return (default dflt (lookup_item key d))
  | _ => Raise (no_attribute v "get")
  end.

(** [v.items()] *)
Definition py_items (v : pyval) : outcome items :=
  match v with
  | PyDict d => Return d
  | _ => Raise (no_attribute v "items")
  end.

(** [for x in v]: the elements of a list, the keys of a dict, the
    characters of a string; [TypeError] on anything else. *)
Definition py_iter (v : pyval) : outcome (list pyval) :=
  match v with
  | PyList l => Return l
  | PyDict d => Return (PyStr <$> d.*1)
  | PyStr s => Return ((λ c, PyStr (String c "")) <$> String.list_ascii_of_string s)
  | _ => Raise (TypeError ("'" +:+ type_name v +:+ "' object is not iterable"))
  end.

(** *** JSON *)

(** The class of the first object that [json.dumps] meets in a value, if
    there is one: the serializer takes the elements of a list and the
    values of a dict in order. *)
Fixpoint unserializable (v : pyval) : option string :=
  match v with
  | PyObject cls => Some cls
  | PyList l =>
      (fix first (l : list pyval) : option string :=
         match l with
         | [] => None
         | x :: rest =>
             match unserializable x with
             | Some cls => Some cls
             | None => first rest
             end
         end) l
  | PyDict d =>
      (fix first (d : list (string * pyval)) : option string :=
         match d with
         | [] => None
         | (_, x) :: rest =>
             match unserializable x with
             | Some cls => Some cls
             | None => first rest
             end
         end) d
  | _ => None
  end.

(** [jsonify(v)]: the value as the body of a response, or the [TypeError]
    of the serializer. *)
Definition jsonify (v : pyval) : outcome pyval :=
  match unserializable v with
  | None => Return v
  | Some cls =>
      Raise (TypeError ("Object of type " +:+ cls +:+ " is not JSON serializable"))
  end.

End Py.

(** ** presidio_flask_estbert.py *)

Module Estbert.
Import Py.

(** [presidio_analyzer.RecognizerResult], as this repository builds and
    reads it. *)
Record RecognizerResult := {
  entity_type : string;
  start : Z;
  end_ : Z;
  score : float;
  analysis_explanation : pyval;
  recognition_metadata : pyval;
}.

(** One aggregated prediction of the token-classification pipeline: a dict
    read at the keys [entity_group], [start], [end] and [score].  A key that
    is missing is [None] here and a [KeyError] when read. *)
Record raw_entity := {
  entity_group : option string;
  raw_start : option Z;
  raw_end : option Z;
  raw_score : option float;
}.

(** [entity[key]] *)
Definition subscript {A} (key : string) (field : option A) : outcome A :=
  match field with
  | Some a => Return a
  | None => Raise (KeyError key)
  end.

Definition ENTITIES : list string := ["PERSON"; "ORGANIZATION"; "LOCATION"].

(** The instance attributes [analyze] reads. *)
Record EstBERTRecognizer := {
  label_mapping : gmap string string;
}.

(** [__init__]: the label mapping of the instance. *)
Definition init : EstBERTRecognizer := {|
  label_mapping :=
    <["PER" := "PERSON"]> (<["ORG" := "ORGANIZATION"]> (<["LOC" := "LOCATION"]> ∅));
|}.

(** [entity['entity_group'].replace('B-', '').replace('I-', '')] *)
Definition strip_tag (label : string) : string :=
  replace (replace label "B-" "") "I-" "".

(** [self.label_mapping.get(entity_type, entity_type)] *)
Definition presidio_entity (self : EstBERTRecognizer) (entity_type : string) : string :=
  default entity_type (label_mapping self !! entity_type).

(** [presidio_entity and presidio_entity in entities] *)
Definition wanted (presidio_entity : string) (entities : list string) : bool :=
  negb (String.eqb presidio_entity "") && bool_decide (presidio_entity ∈ entities).

(** The body of the [for] loop for one prediction: the result to append, if
    any. *)
Definition normalize (self : EstBERTRecognizer) (entities : list string)
    (entity : raw_entity) : outcome (option RecognizerResult) :=
  group ← subscript "entity_group" (entity_group entity);
  let mapped := presidio_entity self (strip_tag group) in
  if wanted mapped entities then
    s ← subscript "start" (raw_start entity);
    e ← subscript "end" (raw_end entity);
    sc ← subscript "score" (raw_score entity);
    Return (Some {| entity_type := mapped; start := s; end_ := e; score := sc;
                    analysis_explanation := PyNone;
                    recognition_metadata := PyNone |})
  else Return None.

(** The [for] loop over the predictions, appending to [results]; an
    exception leaves the loop with the results appended so far. *)
Fixpoint collect (self : EstBERTRecognizer) (entities : list string)
    (ner_results : list raw_entity) (results : list RecognizerResult)
  : list RecognizerResult * option exn :=
  match ner_results with
  | [] => (results, None)
  | entity :: rest =>
      match normalize self entities entity with
      | Return (Some result) => collect self entities rest (results ++ [result])
      | Return None => collect self entities rest results
      | Raise e => (results, Some e)
      end
  end.

Section Analyze.
(** The model behind [self.nlp_pipeline]: whatever it keeps between calls
    is [model_state]. *)
Variable model_state : Type.
Variable nlp_pipeline :
  model_state → string → outcome (list raw_entity) * model_state.

(** What a call can change: the model's state and the standard output. *)
Record world := {
  model : model_state;
  stdout : list string;
}.

Definition print (line : string) (m : model_state) (out : list string) : world :=
  {| model := m; stdout := out ++ [line] |}.

(** [EstBERTRecognizer.analyze] *)
Definition analyze (self : EstBERTRecognizer) (text : string)
    (entities : list string) (w : world) : list RecognizerResult * world :=
  let '(ner_results, m) := nlp_pipeline (model w) text in
  match ner_results with
  | Raise e =>
      ([], print ("Error in EstBERT analysis: " +:+ str_exn e) m (stdout w))
  | Return ner_results =>
      match collect self entities ner_results [] with
      | (results, None) => (results, {| model := m; stdout := stdout w |})
      | (results, Some e) =>
          (results, print ("Error in EstBERT analysis: " +:+ str_exn e) m (stdout w))
      end
  end.
End Analyze.

Arguments model {model_state} w.
Arguments stdout {model_state} w.
Arguments analyze {model_state} nlp_pipeline self text entities w.

Section ValidateConfig.
(** [open(config_path)] followed by [yaml.safe_load]: the parsed document,
    or the exception of a file that is missing or does not parse. *)
Variable safe_load : string → outcome pyval.

Definition required_sections : list string :=
  ["supported_languages"; "nlp_configuration"; "estbert_configuration"].

(** The loop over the required sections: the first one that is not in
    the document, if any. *)
Fixpoint first_missing (sections : list string) (config : pyval)
  : outcome (option string) :=
  match sections with
  | [] => Return None
  | section :: rest =>
      present ← py_in section config;
      if negb present then Return (Some section) else first_missing rest config
  end.

(** [validate_config] *)
Definition validate_config (config_path : string) : bool * string :=
  match config ← safe_load config_path; first_missing required_sections config with
  | Return (Some section) => (false, "Missing required section: " +:+ section)
  | Return None => (true, "Configuration is valid")
  | Raise e => (false, "Configuration error: " +:+ str_exn e)
  end.
End ValidateConfig.

(** What [load_presidio_from_config] uses of presidio_analyzer and of
    transformers.  Every call can raise; an engine changed by a call is the
    engine the call returns. *)
Record Libraries := {
  NlpEngine : Type;
  AnalyzerEngine : Type;
  Pipeline : Type;
  (** [NlpEngineProvider(nlp_configuration=...).create_engine()] *)
  create_engine : pyval → outcome NlpEngine;
  (** [AnalyzerEngine(nlp_engine=, supported_languages=,
      default_score_threshold=)] *)
  new_analyzer : NlpEngine → pyval → pyval → outcome AnalyzerEngine;
  (** the tokenizer, the model and the pipeline that [__init__] loads for a
      model name *)
  load_pipeline : pyval → outcome Pipeline;
  (** [analyzer.registry.add_recognizer(recognizer)] *)
  add_recognizer :
    AnalyzerEngine → EstBERTRecognizer * Pipeline → outcome AnalyzerEngine;
  (** [analyzer.registry.add_recognizers_from_yaml(config_path)] *)
  add_recognizers_from_yaml : AnalyzerEngine → string → outcome AnalyzerEngine;
}.

Section LoadPresidio.
Variable L : Libraries.
Variable safe_load : string → outcome pyval.

(** [EstBERTRecognizer(model_name=...)] *)
Definition new_recognizer (model_name : pyval)
  : outcome (EstBERTRecognizer * Pipeline L) :=
  nlp_pipeline ← load_pipeline L model_name;
  Return (init, nlp_pipeline).

(** [load_presidio_from_config] *)
Definition load_presidio_from_config (config_path : string)
  : outcome (AnalyzerEngine L) :=
  config ← safe_load config_path;
  nlp_configuration ← py_getitem config "nlp_configuration";
  nlp_engine ← create_engine L nlp_configuration;
  supported_languages ← py_getitem config "supported_languages";
  default_score_threshold ←
    py_get config "default_score_threshold" (PyFloat 0.5%float);
  analyzer ← new_analyzer L nlp_engine supported_languages default_score_threshold;
  estbert_configuration ← py_getitem config "estbert_configuration";
  model_name ← py_getitem estbert_configuration "model_name";
  estbert_recognizer ← new_recognizer model_name;
  analyzer ← add_recognizer L analyzer estbert_recognizer;
  add_recognizers_from_yaml L analyzer config_path.
End LoadPresidio.

End Estbert.

(** ** app.py *)

Module App.
Import Py.
Export Estbert (RecognizerResult, entity_type, start, end_, score,
                analysis_explanation, recognition_metadata).

(** [presidio_anonymizer.entities.OperatorConfig(operator_name, params)] *)
Record OperatorConfig := {
  operator_name : pyval;
  params : items;
}.

(** What the constructor of [OperatorConfig] raises
    ([InvalidParamError]). *)
Definition InvalidParamError : exn :=
  Error "Invalid input, operator config must contain operator_name".

(** [OperatorConfig(operator_name, params)]: the constructor refuses a name
    that is false in a condition. *)
Definition new_operator_config (name : pyval) (parameters : items)
  : outcome OperatorConfig :=
  if truthy name
  then Return {| operator_name := name; params := parameters |}
  else Raise InvalidParamError.

(** One entry of the anonymizer engine's [items]. *)
Record OperatorResult := {
  item_start : Z;
  item_end : Z;
  item_entity_type : string;
  item_text : string;
  item_operator : string;
}.

(** What [AnonymizerEngine.anonymize] returns. *)
Record EngineResult := {
  result_text : string;
  result_items : list OperatorResult;
}.

(** What the handlers read of [flask.request]. *)
Record request := {
  is_json : bool;
  get_json : outcome pyval;
}.

(** A handler's [(jsonify(...), status)]. *)
Record response := {
  body : pyval;
  status : Z;
}.

(** The records of [logger]. *)
Inductive level := INFO | ERROR.

Definition log := list (level * string).

Definition logger_error (msg : string) (l : log) : log :=
  (l ++ [(ERROR, msg)])%list.

(** [jsonify(error=msg), code] *)
Definition error_response (msg : string) (code : Z) : response :=
  {| body := PyDict [("error", PyStr msg)]; status := code |}.

(** The literal of line 149. *)
Definition analyze_fallback_entities : list string :=
  ["PERSON"; "LOCATION"; "ORGANIZATION"; "PHONE_NUMBER"; "EMAIL_ADDRESS";
   "URL"; "IP_ADDRESS"; "IBAN_CODE"; "DATE_TIME"; "CRYPTO"; "CREDIT_CARD"].

(** The literal of lines 223 to 226. *)
Definition anonymize_fallback_entities : list string :=
  ["PERSON"; "ORGANIZATION"; "LOCATION"; "DATE_TIME";
   "EMAIL_ADDRESS"; "PHONE_NUMBER"; "URL"; "IP_ADDRESS"].

Definition str_list (l : list string) : pyval := PyList (PyStr <$> l).

(** [handle_generic_exception] *)
Definition handle_generic_exception (error : exn) (l : log) : response * log :=
  (error_response "Internal server error" 500,
   logger_error ("Unexpected error: " +:+ str_exn error) l).

Section Server.
(** [self.config], the parsed configuration file. *)
Variable config : pyval.
(** [self.analyzer.analyze(text=, entities=, language=,
    return_decision_process=, correlation_id=)] *)
Variable analyzer_analyze :
  pyval → pyval → pyval → pyval → pyval → outcome (list RecognizerResult).
(** [self.anonymizer.anonymize(text=, analyzer_results=, operators=)] *)
Variable anonymizer_anonymize :
  pyval → list RecognizerResult → gmap string OperatorConfig →
  outcome EngineResult.
(** [str] on a score. *)
Variable str_float : float → string.

(** [entities or self.config.get('entities_to_detect', fallback)] *)
Definition entities_to_detect (fallback : list string) (entities : pyval)
  : outcome pyval :=
  if truthy entities then Return entities
  else py_get config "entities_to_detect" (str_list fallback).

(** The dict built for one analyzer result (lines 163 to 176). *)
Definition result_dict (result : RecognizerResult) : items :=
  let d := [("entity_type", PyStr (entity_type result));
            ("start", PyInt (start result));
            ("end", PyInt (end_ result));
            ("score", PyStr (str_float (score result)))] in
  let d := if truthy (analysis_explanation result)
           then set_item "analysis_explanation" (analysis_explanation result) d
           else d in
  if truthy (recognition_metadata result)
  then set_item "recognition_metadata" (recognition_metadata result) d
  else d.

(** The [try] block of [analyze]. *)
Definition analyze_try (req : request) : outcome response :=
  if negb (is_json req) then Return (error_response "Request must be JSON" 400)
  else
    data ← get_json req;
    has_text ← py_in "text" data;
    if negb has_text
    then Return (error_response "Missing required field: text" 400)
    else
      text ← py_getitem data "text";
      language ← py_get data "language" (PyStr "xx");
      entities ← py_get data "entities" PyNone;
      return_decision_process ← py_get data "return_decision_process" (PyBool false);
      correlation_id ← py_get data "correlation_id" PyNone;
      to_detect ← entities_to_detect analyze_fallback_entities entities;
      analyzer_results ←
        analyzer_analyze text to_detect language return_decision_process
          correlation_id;
      let results_json := (λ r, PyDict (result_dict r)) <$> analyzer_results in
      json ← jsonify (PyDict [("results", PyList results_json); ("text", text)]);
      Return {| body := json; status := 200 |}.

(** The [/analyze] route. *)
Definition analyze (req : request) (l : log) : response * log :=
  match analyze_try req with
  | Return resp => (resp, l)
  | Raise e =>
      let error_msg := "Analysis failed: " +:+ str_exn e in
      (error_response error_msg 500, logger_error error_msg l)
  end.

(** The operator of one entry of the request's [anonymizers]
    (lines 240 to 252). *)
Definition request_operator (entity_type : string) (config : pyval)
  : outcome OperatorConfig :=
  operator_type ← py_get config "type" (PyStr "replace");
  params ←
    (if is_str "replace" operator_type then
       new_value ← py_get config "new_value" (PyStr ("<" +:+ entity_type +:+ ">"));
       Return [("new_value", new_value)]
     else if is_str "mask" operator_type then
       masking_char ← py_get config "masking_char" (PyStr "*");
       chars_to_mask ← py_get config "chars_to_mask" (PyInt 4);
       from_end ← py_get config "from_end" (PyBool true);
       Return [("masking_char", masking_char); ("chars_to_mask", chars_to_mask);
               ("from_end", from_end)]
     else Return []);
  new_operator_config operator_type params.

(** The loop over [anonymizers.items()]. *)
Fixpoint request_operators (anonymizers : items)
    (operators : gmap string OperatorConfig)
  : outcome (gmap string OperatorConfig) :=
  match anonymizers with
  | [] => Return operators
  | (entity_type, config) :: rest =>
      op ← request_operator entity_type config;
      request_operators rest (<[entity_type := op]> operators)
  end.

(** The operator of one entry of the configuration's [default_operators]. *)
Definition default_operator (replacement : pyval) : OperatorConfig :=
  {| operator_name := PyStr "replace"; params := [("new_value", replacement)] |}.

(** The loop over [default_anonymizers.items()]. *)
Fixpoint default_operators (default_anonymizers : items)
    (operators : gmap string OperatorConfig) : gmap string OperatorConfig :=
  match default_anonymizers with
  | [] => operators
  | (entity_type, replacement) :: rest =>
      default_operators rest (<[entity_type := default_operator replacement]> operators)
  end.

(** [self.config.get('anonymization_config', {}).get('default_operators', {})] *)
Definition default_anonymizers : outcome pyval :=
  anonymization_config ← py_get config "anonymization_config" (PyDict []);
  py_get anonymization_config "default_operators" (PyDict []).

(** Lines 236 to 257: the [operators] handed to the anonymizer engine. *)
Definition setup_operators (anonymizers : pyval)
  : outcome (gmap string OperatorConfig) :=
  if truthy anonymizers then
    entries ← py_items anonymizers;
    request_operators entries ∅
  else
    defaults ← default_anonymizers;
    entries ← py_items defaults;
    Return (default_operators entries ∅).

Definition item_dict (item : OperatorResult) : pyval :=
  PyDict [("start", PyInt (item_start item));
          ("end", PyInt (item_end item));
          ("entity_type", PyStr (item_entity_type item));
          ("text", PyStr (item_text item));
          ("operator", PyStr (item_operator item))].

(** The [try] block of [anonymize]. *)
Definition anonymize_try (req : request) : outcome response :=
  if negb (is_json req) then Return (error_response "Request must be JSON" 400)
  else
    data ← get_json req;
    has_text ← py_in "text" data;
    if negb has_text
    then Return (error_response "Missing required field: text" 400)
    else
      text ← py_getitem data "text";
      language ← py_get data "language" (PyStr "xx");
      anonymizers ← py_get data "anonymizers" PyNone;
      entities ← py_get data "entities" PyNone;
      to_detect ← entities_to_detect anonymize_fallback_entities entities;
      analyzer_results ←
        analyzer_analyze text to_detect language (PyBool false) PyNone;
      operators ← setup_operators anonymizers;
      anonymized_result ← anonymizer_anonymize text analyzer_results operators;
      Return {| body := PyDict [("text", PyStr (result_text anonymized_result));
                                ("items", PyList (item_dict <$> result_items anonymized_result))];
                status := 200 |}.

(** The [/anonymize] route. *)
Definition anonymize (req : request) (l : log) : response * log :=
  match anonymize_try req with
  | Return resp => (resp, l)
  | Raise e =>
      let error_msg := "Anonymization failed: " +:+ str_exn e in
      (error_response error_msg 500, logger_error error_msg l)
  end.
End Server.

(** *** Starting the server *)

(** What starting can raise: the [ValueError] of [_initialize_engines], or
    an exception met while the file is read and the engines are built. *)
Inductive startup_exn :=
| ValueError (msg : string)
| Raised (e : exn).

Definition str_startup_exn (e : startup_exn) : string :=
  match e with
  | ValueError msg => msg
  | Raised e => str_exn e
  end.

Inductive startup (A : Type) :=
| Started (a : A)
| Failed (e : startup_exn).
Arguments Started {A} a.
Arguments Failed {A} e.

Definition logger_info (msg : string) (l : log) : log :=
  (l ++ [(INFO, msg)])%list.

Definition WELCOME_MESSAGE : string :=
  "
    _______  _______  _______  _______ _________ ______  _________ _______ 
    (  ____ )(  ____ )(  ____ \(  ____ \\__   __/(  __  \ \__   __/(  ___  )
    | (    )|| (    )|| (    \/| (    \/   ) (   | (  \  )   ) (   | (   ) |
    | (____)|| (____)|| (__    | (_____    | |   | |   ) |   | |   | |   | |
    |  _____)|     __)|  __)   (_____  )   | |   | |   | |   | |   | |   | |
    | (      | (\ (   | (            ) |   | |   | |   ) |   | |   | |   | |
    | )      | ) \ \__| (____/\/\____) |___) (___| (__/  )___) (___| (___) |
    |/       |/   \__/(_______/\_______)\_______/(______/ \_______/(_______)

    Estonian Presidio API Server
                                                              
".

(** The attributes of the server the routes read. *)
Record EstonianPresidioFlaskServer (Analyzer Anonymizer : Type) := {
  self_config_path : string;
  self_config : pyval;
  self_analyzer : Analyzer;
  self_anonymizer : Anonymizer;
}.
Arguments self_config_path {Analyzer Anonymizer} _.
Arguments self_config {Analyzer Anonymizer} _.
Arguments self_analyzer {Analyzer Anonymizer} _.
Arguments self_anonymizer {Analyzer Anonymizer} _.

Section Startup.
Variable L : Estbert.Libraries.
Variable safe_load : string → outcome pyval.
Variable AnonymizerEngine : Type.
(** [AnonymizerEngine()] *)
Variable new_anonymizer : outcome AnonymizerEngine.

Definition server : Type :=
  EstonianPresidioFlaskServer (Estbert.AnalyzerEngine L) AnonymizerEngine.

(** The [try] block of [_initialize_engines]. *)
Definition initialize_engines_try (config_path : string) (l : log)
  : startup server * log :=
  let '(is_valid, message) := Estbert.validate_config safe_load config_path in
  if negb is_valid
  then (Failed (ValueError ("Invalid configuration: " +:+ message)), l)
  else
    match safe_load config_path with
    | Raise e => (Failed (Raised e), l)
    | Return config =>
        let l :=
          logger_info "Initializing Presidio Analyzer with EstBERT + Stanza..." l in
        match Estbert.load_presidio_from_config L safe_load config_path with
        | Raise e => (Failed (Raised e), l)
        | Return analyzer =>
            let l := logger_info "Initializing Presidio Anonymizer..." l in
            match new_anonymizer with
            | Raise e => (Failed (Raised e), l)
            | Return anonymizer =>
                (Started {| self_config_path := config_path;
                            self_config := config;
                            self_analyzer := analyzer;
                            self_anonymizer := anonymizer |},
                 logger_info "Presidio engines initialized successfully" l)
            end
        end
    end.

(** [_initialize_engines]: an exception is logged and raised again. *)
Definition initialize_engines (config_path : string) (l : log)
  : startup server * log :=
  match initialize_engines_try config_path l with
  | (Started s, l) => (Started s, l)
  | (Failed e, l) =>
      (Failed e,
       logger_error ("Failed to initialize Presidio engines: " +:+ str_startup_exn e) l)
  end.

(** [EstonianPresidioFlaskServer.__init__]: the engines, then the routes
    and the error handlers (registered, not run), then the banner. *)
Definition new_server (config_path : string) (l : log) : startup server * log :=
  match initialize_engines config_path l with
  | (Started s, l) => (Started s, logger_info WELCOME_MESSAGE l)
  | (Failed e, l) => (Failed e, l)
  end.

(** [create_app]: the application of a new server; an exception is logged
    and raised again. *)
Definition create_app (config_path : string) (l : log) : startup server * log :=
  match new_server config_path l with
  | (Started s, l) => (Started s, l)
  | (Failed e, l) =>
      (Failed e,
       logger_error ("Failed to create application: " +:+ str_startup_exn e) l)
  end.
End Startup.

(** *** The routes that only read *)

(** A recognizer of the analyzer engine, as [/recognizers] reads it. *)
Record EntityRecognizer := {
  name : string;
}.

Section Routes.
Variable config : pyval.
(** [self.analyzer.get_recognizers(language)] *)
Variable get_recognizers : string → outcome (list EntityRecognizer).
(** [self.analyzer.get_supported_entities(language)] *)
Variable get_supported_entities : string → outcome (list string).


(** [request.args.get("language", "xx")] *)
Definition language_of (args : list (string * string)) : string :=
  default "xx" (lookup_item "language" args).

(** The [/recognizers] route. *)
Definition recognizers (args : list (string * string)) (l : log)
  : response * log :=
  let language := language_of args in
  match get_recognizers language with
  | Return recognizers_list =>
      let recognizer_names := name <$> recognizers_list in
      ({| body := PyDict [("recognizers", str_list recognizer_names);
                          ("language", PyStr language);
                          ("count", PyInt (Z.of_nat (length recognizer_names)))];
          status := 200 |}, l)
  | Raise e =>
      let error_msg := "Failed to get recognizers: " +:+ str_exn e in
      (error_response error_msg 500, logger_error error_msg l)
  end.

(** The [/supportedentities] route. *)
Definition supported_entities (args : list (string * string)) (l : log)
  : response * log :=
  let language := language_of args in
  match get_supported_entities language with
  | Return entities_list =>
      ({| body := PyDict [("entities", str_list entities_list);
                          ("language", PyStr language);
                          ("count", PyInt (Z.of_nat (length entities_list)))];
          status := 200 |}, l)
  | Raise e =>
      let error_msg := "Failed to get supported entities: " +:+ str_exn e in
      (error_response error_msg 500, logger_error error_msg l)
  end.

(** One entry of [custom_recognizers] in the answer of [/config]. *)
Definition recognizer_summary (rec : pyval) : outcome pyval :=
  rec_name ← py_get rec "name" PyNone;
  rec_type ← py_get rec "type" PyNone;
  supported_entity ← py_get rec "supported_entity" PyNone;
  Return (PyDict [("name", rec_name); ("type", rec_type);
                  ("supported_entity", supported_entity)]).

(** The list comprehension over the custom recognizers. *)
Fixpoint recognizer_summaries (recs : list pyval) : outcome (list pyval) :=
  match recs with
  | [] => Return []
  | rec :: rest =>
      summary ← recognizer_summary rec;
      summaries ← recognizer_summaries rest;
      Return (summary :: summaries)
  end.

(** The [try] block of [get_configuration]. *)
Definition get_configuration_try : outcome response :=
  supported_languages ← py_get config "supported_languages" PyNone;
  default_score_threshold ← py_get config "default_score_threshold" PyNone;
  entities_to_detect ← py_get config "entities_to_detect" PyNone;
  estbert_configuration ← py_get config "estbert_configuration" (PyDict []);
  estbert_model ← py_get estbert_configuration "model_name" PyNone;
  nlp_configuration ← py_get config "nlp_configuration" (PyDict []);
  nlp_engine ← py_get nlp_configuration "nlp_engine_name" PyNone;
  custom ← py_get config "custom_recognizers" (PyList []);
  recs ← py_iter custom;
  custom_recognizers ← recognizer_summaries recs;
  Return {| body := PyDict [("supported_languages", supported_languages);
                            ("default_score_threshold", default_score_threshold);
                            ("entities_to_detect", entities_to_detect);
                            ("estbert_model", estbert_model);
                            ("nlp_engine", nlp_engine);
                            ("custom_recognizers", PyList custom_recognizers)];
            status := 200 |}.

(** The [/config] route. *)
Definition get_configuration (l : log) : response * log :=
  match get_configuration_try with
  | Return resp => (resp, l)
  | Raise e =>
      let error_msg := "Failed to get configuration: " +:+ str_exn e in
      (error_response error_msg 500, logger_error error_msg l)
  end.
End Routes.

End App.

(** ** Concrete inputs *)

Module Examples.
Import Py Estbert App.

(** The predictions for "Jaan Tamm elab Tallinnas." *)
Definition jaan_tamm : raw_entity := {|
  entity_group := Some "PER";
  raw_start := Some 0;
  raw_end := Some 9;
  raw_score := Some 0.875%float;
|}.

Definition tallinnas : raw_entity := {|
  entity_group := Some "LOC";
  raw_start := Some 15;
  raw_end := Some 24;
  raw_score := Some 0.75%float;
|}.

(** A model that keeps count of its calls and always predicts the same. *)
Definition counting_pipeline (calls : nat) (text : string)
  : outcome (list raw_entity) * nat :=
  (Return [jaan_tamm; tallinnas], S calls).

(** A model whose call raises. *)
Definition broken_pipeline (calls : nat) (text : string)
  : outcome (list raw_entity) * nat :=
  (Raise (Error "CUDA out of memory"), S calls).

Definition fresh : world nat := {| model := 0%nat; stdout := [] |}.

(** A configuration file with all the sections the code reads. *)
Definition config : pyval :=
  PyDict
    [("supported_languages", PyList [PyStr "xx"]);
     ("nlp_configuration", PyDict [("nlp_engine_name", PyStr "stanza")]);
     ("estbert_configuration", PyDict [("model_name", PyStr "tartuNLP/EstBERT_NER")]);
     ("anonymization_config",
      PyDict [("default_operators",
               PyDict [("PERSON", PyStr "[ISIK]"); ("LOCATION", PyStr "[ASUKOHT]")])])].

(** A configuration file with the three required sections only. *)
Definition bare_config : pyval :=
  PyDict
    [("supported_languages", PyList [PyStr "xx"]);
     ("nlp_configuration", PyDict [("nlp_engine_name", PyStr "stanza")]);
     ("estbert_configuration", PyDict [("model_name", PyStr "tartuNLP/EstBERT_NER")])].

Definition person : RecognizerResult := {|
  entity_type := "PERSON"; start := 0; end_ := 9; score := 0.875%float;
  analysis_explanation := PyNone; recognition_metadata := PyNone;
|}.

Definition location : RecognizerResult := {|
  entity_type := "LOCATION"; start := 15; end_ := 24; score := 0.75%float;
  analysis_explanation := PyNone; recognition_metadata := PyNone;
|}.

(** An analyzer engine that finds the two spans in every text. *)
Definition finding_analyzer (text entities language decision correlation : pyval)
  : outcome (list RecognizerResult) :=
  Return [person; location].

(** A result that carries the explanation of the engine's decision. *)
Definition explained_person : RecognizerResult := {|
  entity_type := "PERSON"; start := 0; end_ := 9; score := 0.875%float;
  analysis_explanation := PyObject "AnalysisExplanation";
  recognition_metadata := PyNone;
|}.

(** An analyzer engine that explains one of the two spans it finds. *)
Definition explaining_analyzer (text entities language decision correlation : pyval)
  : outcome (list RecognizerResult) :=
  Return [location; explained_person].

(** An analyzer engine that refuses the request. *)
Definition refusing_analyzer (text entities language decision correlation : pyval)
  : outcome (list RecognizerResult) :=
  Raise (Error "No matching recognizers were found to serve the request.").

(** An anonymizer engine that leaves the text alone. *)
Definition idle_anonymizer (text : pyval) (results : list RecognizerResult)
    (operators : gmap string OperatorConfig) : outcome EngineResult :=
  Return {| result_text := ""; result_items := [] |}.

(** An analyzer engine that reports one empty span for every entity type it
    is asked for. *)
Definition echo_analyzer (text entities language decision correlation : pyval)
  : outcome (list RecognizerResult) :=
  Return
    match entities with
    | PyList l =>
        omap (λ v, match v with
                   | PyStr name =>
                       Some {| entity_type := name; start := 0; end_ := 0;
                               score := 0.5%float;
                               analysis_explanation := PyNone;
                               recognition_metadata := PyNone |}
                   | _ => None
                   end) l
    | _ => []
    end.

(** An anonymizer engine that reports one item for every span it is given. *)
Definition echo_anonymizer (text : pyval) (results : list RecognizerResult)
    (operators : gmap string OperatorConfig) : outcome EngineResult :=
  Return {| result_text := "";
            result_items :=
              (λ r, {| item_start := start r; item_end := end_ r;
                       item_entity_type := entity_type r; item_text := "";
                       item_operator := "replace" |}) <$> results |}.

(** An anonymizer engine that puts, for every span, the [new_value] of the
    operator it is given for the span's entity type, and the entity type in
    angle brackets where it is given none. *)
Definition replacing_anonymizer (text : pyval) (results : list RecognizerResult)
    (operators : gmap string OperatorConfig) : outcome EngineResult :=
  Return {| result_text := "";
            result_items :=
              (λ r, {| item_start := start r; item_end := end_ r;
                       item_entity_type := entity_type r;
                       item_text :=
                         match operators !! entity_type r with
                         | Some {| params := [("new_value", PyStr value)] |} => value
                         | _ => "<" +:+ entity_type r +:+ ">"
                         end;
                       item_operator := "replace" |}) <$> results |}.

(** [str] on the scores used here. *)
Definition str_score (f : float) : string :=
  if PrimFloat.eqb f 0.875%float then "0.875"
  else if PrimFloat.eqb f 0.75%float then "0.75"
  else "0.5".

Definition json (data : pyval) : request :=
  {| is_json := true; get_json := Return data |}.

(** The body of the first end-to-end scenario. *)
Definition scenario1 : pyval :=
  PyDict [("text", PyStr "Jaan Tamm elab Tallinnas.");
          ("entities", PyList [PyStr "PERSON"; PyStr "LOCATION"])].


(** A prediction that has its four keys. *)
Record prediction := {
  p_group : string;
  p_start : Z;
  p_end : Z;
  p_score : float;
}.

Definition raw (p : prediction) : raw_entity := {|
  entity_group := Some (p_group p);
  raw_start := Some (p_start p);
  raw_end := Some (p_end p);
  raw_score := Some (p_score p);
|}.

(** The test of line 65 on the label of a prediction. *)
Definition requested (self : EstBERTRecognizer) (entities : list string)
    (p : prediction) : bool :=
  wanted (presidio_entity self (strip_tag (p_group p))) entities.

(** The result lines 67 to 72 build from a prediction. *)
Definition result_of (self : EstBERTRecognizer) (p : prediction)
  : RecognizerResult :=
  {| entity_type := presidio_entity self (strip_tag (p_group p));
     start := p_start p;
     end_ := p_end p;
     score := p_score p;
     analysis_explanation := PyNone;
     recognition_metadata := PyNone |}.

(** A prediction of an organization that has no score. *)
Definition no_score : raw_entity := {|
  entity_group := Some "ORG";
  raw_start := Some 30;
  raw_end := Some 35;
  raw_score := None;
|}.

(** A model that predicts a person, an organization without a score and a
    location. *)
Definition careless_pipeline (calls : nat) (text : string)
  : outcome (list raw_entity) * nat :=
  (Return [jaan_tamm; no_score; tallinnas], S calls).

(** Libraries whose calls all return.  The analyzer engine is the list of
    the names of its recognizers. *)
Definition plain_libraries : Libraries := {|
  NlpEngine := pyval;
  AnalyzerEngine := list string;
  Pipeline := pyval;
  create_engine := λ nlp_configuration, Return nlp_configuration;
  new_analyzer := λ _ _ _, Return [];
  load_pipeline := λ model_name, Return model_name;
  add_recognizer := λ analyzer _, Return (analyzer ++ ["EstBERT_NER_Recognizer"]);
  add_recognizers_from_yaml := λ analyzer _, Return analyzer;
|}.

(** A file system in which every path holds the same document. *)
Definition holding (doc : pyval) (config_path : string) : outcome pyval :=
  Return doc.

(** A configuration file whose model section is empty. *)
Definition nameless_config : pyval :=
  PyDict
    [("supported_languages", PyList [PyStr "xx"]);
     ("nlp_configuration", PyDict [("nlp_engine_name", PyStr "stanza")]);
     ("estbert_configuration", PyDict [])].

End Examples.

(** ** The operator precedence as the specification words it *)

Module Spec.
Import Py App.

(** The score of the Entity Span data model: a number in [[0,1]]. *)
Definition unit_interval_number (v : pyval) : bool :=
  match v with
  | PyFloat f => PrimFloat.leb 0%float f && PrimFloat.leb f 1%float
  | PyInt z => (0 <=? z) && (z <=? 1)
  | _ => false
  end.

(** The entries of a response's [results] or [items] list. *)
Definition entries (key : string) (resp : response) : list pyval :=
  match body resp with
  | PyDict d => match lookup_item key d with Some (PyList l) => l | _ => [] end
  | _ => []
  end.

(** The field of one entry. *)
Definition field (key : string) (entry : pyval) : option pyval :=
  match entry with
  | PyDict d => lookup_item key d
  | _ => None
  end.



End Spec.

(** ** The answer of a route to an exception *)

Module Answers.
Import Py App.

(** The [except] branch the routes share: the text of the exception after
    the route's prefix, as the error of a 500 answer and as an error
    record of the log. *)
Definition failed (prefix : string) (e : exn) (l : log) : response * log :=
  (error_response (prefix +:+ str_exn e) 500,
   l ++ [(ERROR, prefix +:+ str_exn e)]).

(** The answer to a request without a text. *)
Definition missing_text (l : log) : response * log :=
  (error_response "Missing required field: text" 400, l).

(** What [/analyze] answers to the outcome of the analyzer engine
    (lines 160 to 188). *)
Definition analyzed (str_float : float → string) (text : pyval) (l : log)
    (found : outcome (list RecognizerResult)) : response * log :=
  match
    results ← found;
    jsonify (PyDict [("results",
                      PyList ((λ r, PyDict (result_dict str_float r)) <$> results));
                     ("text", text)])
  with
  | Return json => ({| body := json; status := 200 |}, l)
  | Raise e => failed "Analysis failed: " e l
  end.

(** What [/anonymize] answers to the outcome of the analyzer engine, with
    the set-up of the operators and the anonymizer engine that follow it
    (lines 235 to 285). *)
Definition anonymized
    (anonymizer_anonymize :
       pyval → list RecognizerResult → gmap string OperatorConfig →
       outcome EngineResult)
    (text : pyval) (operators : outcome (gmap string OperatorConfig)) (l : log)
    (found : outcome (list RecognizerResult)) : response * log :=
  match
    results ← found;
    operators ← operators;
    anonymizer_anonymize text results operators
  with
  | Return anonymized_result =>
      ({| body := PyDict [("text", PyStr (result_text anonymized_result));
                          ("items",
                           PyList (item_dict <$> result_items anonymized_result))];
          status := 200 |}, l)
  | Raise e => failed "Anonymization failed: " e l
  end.

(** An entry of [anonymizers] from which an operator is built: an object
    whose [type], where it has one, is true in a condition. *)
Definition operator_entry (config : pyval) : Prop :=
  ∃ c, config = PyDict c
       ∧ truthy (default (PyStr "replace") (lookup_item "type" c)) = true.

(** A result whose optional fields, where [/analyze] copies them, hold no
    object that the serializer refuses. *)
Definition json_ready (result : RecognizerResult) : Prop :=
  (truthy (analysis_explanation result) = true →
   unserializable (analysis_explanation result) = None)
  ∧ (truthy (recognition_metadata result) = true →
     unserializable (recognition_metadata result) = None).

End Answers.

(** ** Properties of the recognizer adapter *)

Section RecognizerFacts.
Import Py Estbert.

Context {model_state : Type}.
Variable nlp_pipeline :
  model_state → string → outcome (list raw_entity) * model_state.

(** What [collect] appends passed the test of line 65. *)
Lemma normalize_wanted self entities entity result :
  normalize self entities entity = Return (Some result) →
  wanted (entity_type result) entities = true.
Proof.
  unfold normalize. destruct (entity_group entity) as [group|]; simpl; [|done].
  destruct (wanted _ entities) eqn:Hw; [|done].
  destruct (raw_start entity), (raw_end entity), (raw_score entity); simpl;
    try done.
  by intros [= <-].
Qed.

Lemma collect_Forall (P : RecognizerResult → Prop) self entities ner results :
  (∀ entity result,
     normalize self entities entity = Return (Some result) → P result) →
  Forall P results →
  Forall P (collect self entities ner results).1.
Proof.
  intros Hstep. revert results.
  induction ner as [|entity rest IH]; intros results Hres; simpl; [done|].
  destruct (normalize self entities entity) as [[result|]|e] eqn:Hn; simpl.
  - apply IH. apply Forall_app. split; [done|].
    constructor; [by eapply Hstep|constructor].
  - by apply IH.
  - done.
Qed.

Lemma analyze_Forall (P : RecognizerResult → Prop) self text entities w :
  (∀ entity result,
     normalize self entities entity = Return (Some result) → P result) →
  Forall P (analyze nlp_pipeline self text entities w).1.
Proof.
  intros Hstep. unfold analyze.
  destruct (nlp_pipeline (model w) text) as [[ner|e] m]; simpl; [|constructor].
  pose proof (collect_Forall P self entities ner [] Hstep (Forall_nil_2 P)) as H.
  by destruct (collect self entities ner []) as [results [e|]].
Qed.

Lemma wanted_spec mapped entities :
  wanted mapped entities = true ↔ mapped ≠ "" ∧ mapped ∈ entities.
Proof.
  unfold wanted. rewrite andb_true_iff, negb_true_iff, bool_decide_eq_true.
  rewrite String.eqb_neq. done.
Qed.
End RecognizerFacts.

Section RecognizerProperties.
Import Py Estbert.

(** C1 (counterexample).  The model predicts a PER span for "Jaan Tamm",
    whose mapped type PERSON is one the recognizer declares; called with
    an empty list of requested entities, [analyze] returns no span. *)
Lemma analyze_empty_request_drops_person :
  presidio_entity init (strip_tag "PER") = "PERSON"
  ∧ "PERSON" ∈ ENTITIES
  ∧ (analyze Examples.counting_pipeline init "Jaan Tamm elab Tallinnas." []
       Examples.fresh).1 = [].
Proof. split; [reflexivity|]. split; [|reflexivity]. repeat constructor. Qed.

(** C1 (amended).  Every span [analyze] returns has a non-empty entity type
    that is a member of the requested list, so with an empty requested list
    it returns no span at all, whatever the model predicts. *)
Theorem analyze_keeps_only_requested :
  ∀ (model_state : Type)
    (nlp_pipeline : model_state → string → outcome (list raw_entity) * model_state)
    (self : EstBERTRecognizer) (text : string) (entities : list string)
    (w : world model_state),
    Forall (λ result, entity_type result ≠ "" ∧ entity_type result ∈ entities)
      (analyze nlp_pipeline self text entities w).1
    ∧ (analyze nlp_pipeline self text [] w).1 = [].
Proof.
  intros S pipeline self text entities w.
  assert (∀ ents, Forall (λ r, entity_type r ≠ "" ∧ entity_type r ∈ ents)
                    (analyze pipeline self text ents w).1) as Hall.
  { intros ents. apply analyze_Forall. intros entity result Hn.
    apply wanted_spec. by eapply normalize_wanted. }
  split; [apply Hall|].
  specialize (Hall []).
  destruct (analyze pipeline self text [] w).1 as [|r rs]; [done|].
  apply Forall_cons in Hall as [[_ Hin] _]. by apply elem_of_nil in Hin.
Qed.

(** C2 (the code at the failing input).  The label SUB-ORG starts with
    neither B- nor I-, yet the two [replace] calls take the B- out of its
    middle, and it is SUORG that is looked up and passed on; stripping a
    leading marker only would leave the label as it is. *)
Theorem strip_tag_removes_inner_marker :
  strip_tag "SUB-ORG" = "SUORG"
  ∧ presidio_entity init (strip_tag "SUB-ORG") = "SUORG"
  ∧ String.prefix "B-" "SUB-ORG" = false
  ∧ String.prefix "I-" "SUB-ORG" = false
  ∧ normalize init ["SUB-ORG"]
      {| entity_group := Some "SUB-ORG"; raw_start := Some 0;
         raw_end := Some 7; raw_score := Some 0.5%float |} = Return None.
Proof. repeat split; reflexivity. Qed.

(** C3.  When the call of the model raises, [analyze] returns the empty
    list and prints one line holding the exception; nothing is raised. *)
Theorem analyze_model_failure :
  ∀ (model_state : Type)
    (nlp_pipeline : model_state → string → outcome (list raw_entity) * model_state)
    (self : EstBERTRecognizer) (text : string) (entities : list string)
    (w : world model_state) (e : exn) (m : model_state),
    nlp_pipeline (model w) text = (Raise e, m) →
    analyze nlp_pipeline self text entities w =
      ([], {| model := m;
              stdout := stdout w ++ ["Error in EstBERT analysis: " +:+ str_exn e] |}).
Proof. intros S pipeline self text entities w e m H. unfold analyze. by rewrite H. Qed.

Lemma analyze_model_failure_witness :
  analyze Examples.broken_pipeline init "Jaan Tamm elab Tallinnas."
    ["PERSON"; "LOCATION"] Examples.fresh =
    ([], {| model := 1%nat;
            stdout := ["Error in EstBERT analysis: CUDA out of memory"] |}).
Proof.
  exact (analyze_model_failure nat Examples.broken_pipeline init
           "Jaan Tamm elab Tallinnas." ["PERSON"; "LOCATION"] Examples.fresh
           (Error "CUDA out of memory") 1%nat eq_refl).
Defined.

(** C9.  If what the model returns depends on the text alone (not on the
    state it is called in), a second call of [analyze] with the same text
    and requested entities, made in the world the first call left,
    returns the same spans as the first. *)
Theorem analyze_twice_same_spans :
  ∀ (model_state : Type)
    (nlp_pipeline : model_state → string → outcome (list raw_entity) * model_state)
    (self : EstBERTRecognizer) (text : string) (entities : list string)
    (w : world model_state),
    (∀ m1 m2 t, (nlp_pipeline m1 t).1 = (nlp_pipeline m2 t).1) →
    (analyze nlp_pipeline self text entities
       (analyze nlp_pipeline self text entities w).2).1
    = (analyze nlp_pipeline self text entities w).1.
Proof.
  intros S pipeline self text entities w Hdet.
  set (w1 := (analyze pipeline self text entities w).2).
  unfold analyze.
  specialize (Hdet (model w1) (model w) text).
  destruct (pipeline (model w1) text) as [o1 m1].
  destruct (pipeline (model w) text) as [o2 m2].
  simpl in Hdet. subst o2.
  destruct o1 as [ner|e]; [|done].
  by destruct (collect self entities ner []) as [results [e|]].
Qed.

Lemma analyze_twice_same_spans_witness :
  (analyze Examples.counting_pipeline init "Jaan Tamm elab Tallinnas." ["PERSON"]
     (analyze Examples.counting_pipeline init "Jaan Tamm elab Tallinnas."
        ["PERSON"] Examples.fresh).2).1
  = (analyze Examples.counting_pipeline init "Jaan Tamm elab Tallinnas."
       ["PERSON"] Examples.fresh).1.
Proof.
  apply (analyze_twice_same_spans nat Examples.counting_pipeline init
           "Jaan Tamm elab Tallinnas." ["PERSON"] Examples.fresh).
  intros m1 m2 t. reflexivity.
Defined.
End RecognizerProperties.

(** ** Properties of strings and dictionaries *)

Section StringFacts.
Import Py.

Lemma prefix_append (s t : string) : String.prefix s (s +:+ t) = true.
Proof.
  induction s as [|c s IH]; simpl; [by destruct t|].
  destruct (Ascii.ascii_dec c c); [done|congruence].
Qed.

Lemma contains_prefix (s needle : string) :
  String.prefix needle s = true → contains s needle = true.
Proof. intros H. destruct s; simpl in *; by rewrite H. Qed.

(** A string occurs in whatever is written around it. *)
Lemma contains_append (before needle after : string) :
  contains (before +:+ needle +:+ after) needle = true.
Proof.
  induction before as [|c before IH].
  - change (contains (needle +:+ after) needle = true).
    apply contains_prefix, prefix_append.
  - change (String.prefix needle (String c (before +:+ needle +:+ after))
            || contains (before +:+ needle +:+ after) needle = true).
    rewrite IH. apply orb_true_r.
Qed.

Lemma append_empty (s : string) : s +:+ "" = s.
Proof.
  induction s as [|c s IH]; [done|].
  change (String c (s +:+ "") = String c s). by rewrite IH.
Qed.

(** A string occurs in whatever ends with it. *)
Lemma contains_suffix (before needle : string) :
  contains (before +:+ needle) needle = true.
Proof.
  rewrite <- (append_empty needle) at 1. apply contains_append.
Qed.
End StringFacts.

Section DictFacts.
Import Py.
Context {A : Type}.
Implicit Types (d : list (string * A)) (k : string).

Lemma lookup_set_item_eq k v d : lookup_item k (set_item k v d) = Some v.
Proof.
  induction d as [|[k' w] d IH]; simpl.
  - by rewrite String.eqb_refl.
  - destruct (String.eqb k' k) eqn:E; simpl; by rewrite E.
Qed.

Lemma lookup_set_item_ne k k' v d :
  k ≠ k' → lookup_item k' (set_item k v d) = lookup_item k' d.
Proof.
  intros Hne. induction d as [|[k0 w] d IH]; simpl.
  - by apply String.eqb_neq in Hne as ->.
  - destruct (String.eqb k0 k) eqn:E; simpl; [|by rewrite IH].
    apply String.eqb_eq in E as ->.
    by apply String.eqb_neq in Hne as ->.
Qed.

Lemma lookup_del_item_eq k d : lookup_item k (del_item k d) = None.
Proof.
  induction d as [|[k' w] d IH]; simpl; [done|].
  destruct (String.eqb k' k) eqn:E; simpl; [done|]. by rewrite E.
Qed.

Lemma lookup_del_item_ne k k' d :
  k ≠ k' → lookup_item k' (del_item k d) = lookup_item k' d.
Proof.
  intros Hne. induction d as [|[k0 w] d IH]; simpl; [done|].
  destruct (String.eqb k0 k) eqn:E; simpl; [|by rewrite IH].
  apply String.eqb_eq in E as ->.
  by apply String.eqb_neq in Hne as ->.
Qed.

End DictFacts.

(** ** Properties of the configuration check *)

Section ConfigProperties.
Import Py Estbert.

(** C4 (counterexample).  An empty configuration file parses to [None];
    all three sections are absent from it, and the message reported names
    none of them. *)
Lemma validate_config_empty_file :
  validate_config (λ _, Return PyNone) "presidio-stanza-estbert.yml"
    = (false, "Configuration error: argument of type 'NoneType' is not iterable")
  ∧ Forall (λ section,
      contains "Configuration error: argument of type 'NoneType' is not iterable"
        section = false) required_sections.
Proof. split; [reflexivity|]. repeat constructor. Qed.

Lemma first_missing_found d pre missing post :
  Forall (λ section, is_Some (lookup_item section d)) pre →
  lookup_item missing d = None →
  first_missing (pre ++ missing :: post) (PyDict d) = Return (Some missing).
Proof.
  intros Hpre Hnone. induction Hpre as [|section pre [x Hx] _ IH]; simpl.
  - by rewrite Hnone.
  - rewrite Hx. exact IH.
Qed.

Lemma first_missing_none d sections :
  Forall (λ section, is_Some (lookup_item section d)) sections →
  first_missing sections (PyDict d) = Return None.
Proof.
  induction 1 as [|section sections [x Hx] _ IH]; simpl; [done|].
  rewrite Hx. exact IH.
Qed.

(** C4 (amended).  [validate_config] always returns its pair.  On a file
    that parses to a mapping it returns [False] and the message
    "Missing required section: " followed by the name of the first required
    section, in the order checked, that is not a key of the mapping, so
    whenever one of the three is absent from the mapping the message holds
    the name of an absent one; it returns [True] when all three are keys.  A
    file that cannot be opened or parsed gives [False] and the text of the
    exception, and so does a file that parses to a value that is no
    container (an empty file, a number, a boolean): the message is then the
    exception's and names no section. *)
Theorem validate_config_reports :
  ∀ (safe_load : string → outcome pyval) (config_path : string),
    (∀ d pre missing post,
       safe_load config_path = Return (PyDict d) →
       required_sections = pre ++ missing :: post →
       Forall (λ section, is_Some (lookup_item section d)) pre →
       lookup_item missing d = None →
       validate_config safe_load config_path
         = (false, "Missing required section: " +:+ missing)
       ∧ contains ("Missing required section: " +:+ missing) missing = true)
    ∧ (∀ d section,
         safe_load config_path = Return (PyDict d) →
         section ∈ required_sections → lookup_item section d = None →
         ∃ missing,
           missing ∈ required_sections ∧ lookup_item missing d = None
           ∧ validate_config safe_load config_path
               = (false, "Missing required section: " +:+ missing)
           ∧ contains ("Missing required section: " +:+ missing) missing = true)
    ∧ (∀ d,
         safe_load config_path = Return (PyDict d) →
         Forall (λ section, is_Some (lookup_item section d)) required_sections →
         validate_config safe_load config_path = (true, "Configuration is valid"))
    ∧ (∀ e,
         safe_load config_path = Raise e →
         validate_config safe_load config_path
           = (false, "Configuration error: " +:+ str_exn e))
    ∧ (∀ v,
         safe_load config_path = Return v →
         v = PyNone ∨ (∃ b, v = PyBool b) ∨ (∃ z, v = PyInt z) ∨ (∃ f, v = PyFloat f) →
         validate_config safe_load config_path
           = (false, "Configuration error: argument of type '" +:+ type_name v
                       +:+ "' is not iterable")).
Proof.
  intros safe_load path. unfold validate_config.
  split; [|split; [|split; [|split]]].
  - intros d pre missing post Hload Hsplit Hpre Hnone.
    rewrite Hload, Hsplit.
    change (match first_missing (pre ++ missing :: post) (PyDict d) with
            | Return (Some section) => (false, "Missing required section: " +:+ section)
            | Return None => (true, "Configuration is valid")
            | Raise e => (false, "Configuration error: " +:+ str_exn e)
            end = (false, "Missing required section: " +:+ missing)
            ∧ contains ("Missing required section: " +:+ missing) missing = true).
    rewrite (first_missing_found d pre missing post Hpre Hnone).
    split; [done|]. apply contains_suffix.
  - intros d section Hload Hin Hnone. rewrite Hload. simpl.
    destruct (lookup_item "supported_languages" d) as [x1|] eqn:H1; simpl.
    2:{ exists "supported_languages". repeat split; try done. repeat constructor. }
    destruct (lookup_item "nlp_configuration" d) as [x2|] eqn:H2; simpl.
    2:{ exists "nlp_configuration". repeat split; try done. repeat constructor. }
    destruct (lookup_item "estbert_configuration" d) as [x3|] eqn:H3; simpl.
    2:{ exists "estbert_configuration". repeat split; try done. repeat constructor. }
    unfold required_sections in Hin.
    apply elem_of_cons in Hin as [->|Hin]; [congruence|].
    apply elem_of_cons in Hin as [->|Hin]; [congruence|].
    apply elem_of_cons in Hin as [->|Hin]; [congruence|].
    by apply elem_of_nil in Hin.
  - intros d Hload Hall. rewrite Hload.
    change (match first_missing required_sections (PyDict d) with
            | Return (Some section) => (false, "Missing required section: " +:+ section)
            | Return None => (true, "Configuration is valid")
            | Raise e => (false, "Configuration error: " +:+ str_exn e)
            end = (true, "Configuration is valid")).
    by rewrite (first_missing_none d required_sections Hall).
  - intros e ->. reflexivity.
  - intros v -> [->|[[b ->]|[[z ->]|[f ->]]]]; reflexivity.
Qed.

Lemma validate_config_reports_witness :
  validate_config
    (λ _, Return (PyDict [("supported_languages", PyList [PyStr "xx"]);
                          ("nlp_configuration", PyDict [])]))
    "presidio-stanza-estbert.yml"
    = (false, "Missing required section: estbert_configuration")
  ∧ validate_config
      (λ _, Return (PyDict [("supported_languages", PyList [PyStr "xx"]);
                            ("nlp_configuration", PyDict []);
                            ("estbert_configuration", PyDict [])]))
      "presidio-stanza-estbert.yml"
      = (true, "Configuration is valid")
  ∧ validate_config (λ _, Raise (Error "[Errno 2] No such file or directory"))
      "presidio-stanza-estbert.yml"
      = (false, "Configuration error: [Errno 2] No such file or directory")
  ∧ validate_config (λ _, Return (PyInt 42)) "presidio-stanza-estbert.yml"
      = (false, "Configuration error: argument of type 'int' is not iterable").
Proof.
  split; [|split; [|split]].
  - apply (proj1 (validate_config_reports
             (λ _, Return (PyDict [("supported_languages", PyList [PyStr "xx"]);
                                   ("nlp_configuration", PyDict [])]))
             "presidio-stanza-estbert.yml")
             [("supported_languages", PyList [PyStr "xx"]);
              ("nlp_configuration", PyDict [])]
             ["supported_languages"; "nlp_configuration"]
             "estbert_configuration" []).
    + reflexivity.
    + reflexivity.
    + repeat constructor; by eexists.
    + reflexivity.
  - apply (proj1 (proj2 (proj2 (validate_config_reports
             (λ _, Return (PyDict [("supported_languages", PyList [PyStr "xx"]);
                                   ("nlp_configuration", PyDict []);
                                   ("estbert_configuration", PyDict [])]))
             "presidio-stanza-estbert.yml")))
             [("supported_languages", PyList [PyStr "xx"]);
              ("nlp_configuration", PyDict []);
              ("estbert_configuration", PyDict [])]); [reflexivity|].
    repeat constructor; by eexists.
  - apply (proj1 (proj2 (proj2 (proj2 (validate_config_reports
             (λ _, Raise (Error "[Errno 2] No such file or directory"))
             "presidio-stanza-estbert.yml"))))
             (Error "[Errno 2] No such file or directory")).
    reflexivity.
  - apply (proj2 (proj2 (proj2 (proj2 (validate_config_reports
             (λ _, Return (PyInt 42)) "presidio-stanza-estbert.yml"))))
             (PyInt 42)); [reflexivity|].
    right. right. left. by exists 42.
Defined.
End ConfigProperties.

(** ** Properties of the request handlers *)

Section OperatorFacts.
Import Py App.

(** An entry of [anonymizers] that is an object yields an operator when
    its type is true in a condition. *)
Lemma request_operator_returns entity_type c :
  truthy (default (PyStr "replace") (lookup_item "type" c)) = true →
  ∃ op, request_operator entity_type (PyDict c) = Return op.
Proof.
  intros Htype. unfold request_operator, new_operator_config. simpl.
  rewrite Htype.
  destruct (is_str "replace" _); [by eexists|].
  destruct (is_str "mask" _); by eexists.
Qed.

(** With a type that is false in a condition the constructor refuses it. *)
Lemma request_operator_refuses entity_type c :
  truthy (default (PyStr "replace") (lookup_item "type" c)) = false →
  request_operator entity_type (PyDict c) = Raise InvalidParamError.
Proof.
  intros Htype. unfold request_operator, new_operator_config. simpl.
  rewrite Htype.
  destruct (is_str "replace" _); [done|].
  by destruct (is_str "mask" _).
Qed.


End OperatorFacts.

Section OperatorProperties.
Import Py App.



End OperatorProperties.

Section HandlerFacts.
Import Py App.

Variable config : pyval.
Variable analyzer_analyze :
  pyval → pyval → pyval → pyval → pyval → outcome (list RecognizerResult).
Variable anonymizer_anonymize :
  pyval → list RecognizerResult → gmap string OperatorConfig → outcome EngineResult.
Variable str_float : float → string.

(** The score entry survives the optional entries added after it. *)
Lemma result_dict_score result :
  lookup_item "score" (result_dict str_float result)
    = Some (PyStr (str_float (score result))).
Proof.
  unfold result_dict.
  destruct (truthy (analysis_explanation result)),
    (truthy (recognition_metadata result));
    rewrite ?lookup_set_item_ne by discriminate; reflexivity.
Qed.

(** The [try] block of [/analyze] on a JSON object with a text, as far as
    the call of the analyzer engine. *)
Lemma analyze_try_object d text to_detect :
  lookup_item "text" d = Some text →
  entities_to_detect config analyze_fallback_entities
    (default PyNone (lookup_item "entities" d)) = Return to_detect →
  analyze_try config analyzer_analyze str_float
    {| is_json := true; get_json := Return (PyDict d) |}
  = (results ←
       analyzer_analyze text to_detect
         (default (PyStr "xx") (lookup_item "language" d))
         (default (PyBool false) (lookup_item "return_decision_process" d))
         (default PyNone (lookup_item "correlation_id" d));
     json ← jsonify (PyDict [("results",
                              PyList ((λ r, PyDict (result_dict str_float r))
                                        <$> results));
                             ("text", text)]);
     Return {| body := json; status := 200 |}).
Proof.
  intros Htext Hent. unfold analyze_try. simpl. rewrite Htext. simpl.
  by rewrite Hent.
Qed.

(** The serializer on the entry of one result. *)
Lemma unserializable_result_dict result :
  unserializable (PyDict (result_dict str_float result))
    = match (if truthy (analysis_explanation result)
             then unserializable (analysis_explanation result) else None) with
      | Some cls => Some cls
      | None =>
          if truthy (recognition_metadata result)
          then unserializable (recognition_metadata result) else None
      end.
Proof.
  unfold result_dict.
  destruct (truthy (analysis_explanation result)),
    (truthy (recognition_metadata result)); simpl;
    repeat match goal with
           | |- context [unserializable ?v] =>
               is_var v || (destruct (unserializable v); try reflexivity)
           end; reflexivity.
Qed.

Lemma unserializable_ready result :
  Answers.json_ready result →
  unserializable (PyDict (result_dict str_float result)) = None.
Proof.
  intros [Hexplanation Hmetadata]. rewrite unserializable_result_dict.
  destruct (truthy (analysis_explanation result)).
  - rewrite Hexplanation by done.
    destruct (truthy (recognition_metadata result)); [by apply Hmetadata|done].
  - destruct (truthy (recognition_metadata result)); [by apply Hmetadata|done].
Qed.

(** The serializer on the entries of results of which the first that it
    refuses, if any, is given. *)
Lemma unserializable_entries before rest :
  Forall Answers.json_ready before →
  unserializable (PyList ((λ r, PyDict (result_dict str_float r))
                            <$> (before ++ rest)))
    = unserializable (PyList ((λ r, PyDict (result_dict str_float r)) <$> rest)).
Proof.
  induction 1 as [|r before Hr _ IH]; [done|].
  rewrite <- app_comm_cons, fmap_cons.
  change (match unserializable (PyDict (result_dict str_float r)) with
          | Some cls => Some cls
          | None =>
              unserializable
                (PyList ((λ r, PyDict (result_dict str_float r))
                           <$> (before ++ rest)))
          end = unserializable
                  (PyList ((λ r, PyDict (result_dict str_float r)) <$> rest))).
  by rewrite (unserializable_ready r Hr).
Qed.

(** The serializer on a dict of two items. *)
Lemma unserializable_pair k1 v1 k2 v2 :
  unserializable (PyDict [(k1, v1); (k2, v2)])
    = match unserializable v1 with
      | Some cls => Some cls
      | None => unserializable v2
      end.
Proof.
  simpl. destruct (unserializable v1); [done|]. by destruct (unserializable v2).
Qed.

(** The body of a 200 answer of [/analyze] passes the serializer when the
    text and the results do. *)
Lemma jsonify_results text results :
  unserializable text = None →
  Forall Answers.json_ready results →
  jsonify (PyDict [("results",
                    PyList ((λ r, PyDict (result_dict str_float r)) <$> results));
                   ("text", text)])
    = Return (PyDict [("results",
                       PyList ((λ r, PyDict (result_dict str_float r))
                                 <$> results));
                      ("text", text)]).
Proof.
  intros Htext Hready. unfold jsonify.
  pose proof (unserializable_entries results [] Hready) as Hentries.
  rewrite app_nil_r in Hentries.
  by rewrite unserializable_pair, Hentries, Htext.
Qed.

(** It is refused at the first result that carries an object for its
    explanation. *)
Lemma jsonify_explanation text before result after cls :
  Forall Answers.json_ready before →
  analysis_explanation result = PyObject cls →
  jsonify (PyDict [("results",
                    PyList ((λ r, PyDict (result_dict str_float r))
                              <$> (before ++ result :: after)));
                   ("text", text)])
    = Raise (TypeError ("Object of type " +:+ cls +:+ " is not JSON serializable")).
Proof.
  intros Hready Hobject. unfold jsonify.
  rewrite unserializable_pair, (unserializable_entries before _ Hready), fmap_cons.
  change (unserializable
            (PyList (PyDict (result_dict str_float result)
                       :: ((λ r, PyDict (result_dict str_float r)) <$> after))))
    with (match unserializable (PyDict (result_dict str_float result)) with
          | Some cls' => Some cls'
          | None =>
              unserializable
                (PyList ((λ r, PyDict (result_dict str_float r)) <$> after))
          end).
  by rewrite unserializable_result_dict, Hobject.
Qed.

(** The same for [/anonymize], as far as the call of the analyzer engine. *)
Lemma anonymize_try_object d text to_detect :
  lookup_item "text" d = Some text →
  entities_to_detect config anonymize_fallback_entities
    (default PyNone (lookup_item "entities" d)) = Return to_detect →
  anonymize_try config analyzer_analyze anonymizer_anonymize
    {| is_json := true; get_json := Return (PyDict d) |}
  = (results ← analyzer_analyze text to_detect
                 (default (PyStr "xx") (lookup_item "language" d))
                 (PyBool false) PyNone;
     operators ← setup_operators config
                   (default PyNone (lookup_item "anonymizers" d));
     anonymized ← anonymizer_anonymize text results operators;
     Return {| body := PyDict [("text", PyStr (result_text anonymized));
                               ("items", PyList (item_dict <$> result_items anonymized))];
               status := 200 |}).
Proof.
  intros Htext Hent. unfold anonymize_try. simpl. rewrite Htext. simpl.
  by rewrite Hent.
Qed.

(** A request entity list that is true in a condition is used as it is. *)
Lemma entities_to_detect_override fallback entities :
  truthy entities = true →
  entities_to_detect config fallback entities = Return entities.
Proof. intros H. unfold entities_to_detect. by rewrite H. Qed.

(** One that is false in a condition gives way to the configuration. *)
Lemma entities_to_detect_default fallback entities :
  truthy entities = false →
  entities_to_detect config fallback entities
    = py_get config "entities_to_detect" (str_list fallback).
Proof. intros H. unfold entities_to_detect. by rewrite H. Qed.
End HandlerFacts.

Section HandlerProperties.
Import Py App.

(** C6 (counterexample).  The first end-to-end scenario: the analyzer engine
    finds PERSON with score 0.875 and LOCATION with score 0.75, both in the
    unit interval.  In the response the two score fields are the strings
    "0.875" and "0.75", which are no numbers. *)
Lemma scenario1_scores_are_text :
  Spec.field "score"
    <$> Spec.entries "results"
          (analyze Examples.config Examples.finding_analyzer Examples.str_score
             (Examples.json Examples.scenario1) []).1
    = [Some (PyStr "0.875"); Some (PyStr "0.75")]
  ∧ status (analyze Examples.config Examples.finding_analyzer Examples.str_score
              (Examples.json Examples.scenario1) []).1 = 200
  ∧ Spec.unit_interval_number (PyStr "0.875") = false
  ∧ Spec.unit_interval_number (PyStr "0.75") = false
  ∧ Spec.unit_interval_number (PyFloat (score Examples.person)) = true
  ∧ Spec.unit_interval_number (PyFloat (score Examples.location)) = true.
Proof. repeat split; vm_compute; reflexivity. Qed.

(** C6 (amended).  A request whose body is a JSON object with a text, for
    which the analyzer engine returns results that the serializer accepts,
    is answered with status 200 and one entry per result, in order; the
    score field of every entry is a JSON string, Python's [str] of the score
    the analyzer engine gave, with no check of its range.  When a result
    carries an explanation object, as the engine's decision process gives,
    the serializer refuses the body and the answer is 500 with the text of
    its [TypeError]. *)
Theorem analyze_scores_are_strings :
  ∀ (config : pyval)
    (analyzer_analyze :
       pyval → pyval → pyval → pyval → pyval → outcome (list RecognizerResult))
    (str_float : float → string)
    (d : items) (text to_detect : pyval) (results : list RecognizerResult)
    (l : log),
    lookup_item "text" d = Some text →
    entities_to_detect config analyze_fallback_entities
      (default PyNone (lookup_item "entities" d)) = Return to_detect →
    analyzer_analyze text to_detect
      (default (PyStr "xx") (lookup_item "language" d))
      (default (PyBool false) (lookup_item "return_decision_process" d))
      (default PyNone (lookup_item "correlation_id" d)) = Return results →
    (unserializable text = None →
     Forall Answers.json_ready results →
     analyze config analyzer_analyze str_float
       {| is_json := true; get_json := Return (PyDict d) |} l
       = ({| body := PyDict [("results",
                              PyList ((λ r, PyDict (result_dict str_float r))
                                        <$> results));
                             ("text", text)];
             status := 200 |}, l))
    ∧ Forall (λ r, lookup_item "score" (result_dict str_float r)
                     = Some (PyStr (str_float (score r)))) results
    ∧ (∀ before result after cls,
         results = before ++ result :: after →
         Forall Answers.json_ready before →
         analysis_explanation result = PyObject cls →
         analyze config analyzer_analyze str_float
           {| is_json := true; get_json := Return (PyDict d) |} l
           = Answers.failed "Analysis failed: "
               (TypeError ("Object of type " +:+ cls
                             +:+ " is not JSON serializable")) l).
Proof.
  intros config analyzer str_float d text to_detect results l Htext Hent Hres.
  split; [|split].
  - intros Hserial Hready. unfold analyze.
    rewrite (analyze_try_object config analyzer str_float d text to_detect Htext Hent).
    rewrite Hres. simpl. by rewrite (jsonify_results str_float text results).
  - apply Forall_forall. intros r _. apply result_dict_score.
  - intros before result after cls -> Hready Hobject. unfold analyze.
    rewrite (analyze_try_object config analyzer str_float d text to_detect Htext Hent).
    rewrite Hres. simpl.
    by rewrite (jsonify_explanation str_float text before result after cls).
Qed.

Lemma analyze_scores_are_strings_witness :
  analyze Examples.config Examples.finding_analyzer Examples.str_score
    (Examples.json Examples.scenario1) []
    = ({| body :=
            PyDict [("results",
                     PyList ((λ r, PyDict (result_dict Examples.str_score r))
                               <$> [Examples.person; Examples.location]));
                    ("text", PyStr "Jaan Tamm elab Tallinnas.")];
          status := 200 |}, [])
  ∧ Forall (λ r, lookup_item "score" (result_dict Examples.str_score r)
                   = Some (PyStr (Examples.str_score (score r))))
      [Examples.person; Examples.location]
  ∧ analyze Examples.config Examples.explaining_analyzer Examples.str_score
      (Examples.json Examples.scenario1) []
      = (error_response
           "Analysis failed: Object of type AnalysisExplanation is not JSON serializable"
           500,
         [(ERROR,
           "Analysis failed: Object of type AnalysisExplanation is not JSON serializable")]).
Proof.
  pose proof (analyze_scores_are_strings Examples.config Examples.finding_analyzer
                Examples.str_score
                [("text", PyStr "Jaan Tamm elab Tallinnas.");
                 ("entities", PyList [PyStr "PERSON"; PyStr "LOCATION"])]
                (PyStr "Jaan Tamm elab Tallinnas.")
                (PyList [PyStr "PERSON"; PyStr "LOCATION"])
                [Examples.person; Examples.location] []
                eq_refl eq_refl eq_refl) as (Hok & Hscore & _).
  split; [|split].
  - apply Hok; [reflexivity|]. by repeat constructor.
  - exact Hscore.
  - apply (proj2 (proj2 (analyze_scores_are_strings Examples.config
                           Examples.explaining_analyzer Examples.str_score
                           [("text", PyStr "Jaan Tamm elab Tallinnas.");
                            ("entities", PyList [PyStr "PERSON"; PyStr "LOCATION"])]
                           (PyStr "Jaan Tamm elab Tallinnas.")
                           (PyList [PyStr "PERSON"; PyStr "LOCATION"])
                           [Examples.location; Examples.explained_person] []
                           eq_refl eq_refl eq_refl))
             [Examples.location] Examples.explained_person [] "AnalysisExplanation").
    + reflexivity.
    + by repeat constructor.
    + reflexivity.
Defined.

(** C7 (the code at the failing input).  A request with a text and no
    entities, under a configuration without [entities_to_detect]: the
    analyzer engine is asked for the eleven types of line 149 by [/analyze]
    and for the eight types of lines 224 and 225 by [/anonymize], which
    lack IBAN_CODE, CRYPTO and CREDIT_CARD.  A request's own non-empty list
    is used as it is by both. *)
Theorem anonymize_fallback_lacks_three :
  Spec.field "entity_type"
    <$> Spec.entries "results"
          (analyze Examples.bare_config Examples.echo_analyzer Examples.str_score
             (Examples.json (PyDict [("text", PyStr "Jaan Tamm")])) []).1
    = (λ name, Some (PyStr name))
        <$> ["PERSON"; "LOCATION"; "ORGANIZATION"; "PHONE_NUMBER"; "EMAIL_ADDRESS";
             "URL"; "IP_ADDRESS"; "IBAN_CODE"; "DATE_TIME"; "CRYPTO"; "CREDIT_CARD"]
  ∧ Spec.field "entity_type"
      <$> Spec.entries "items"
            (anonymize Examples.bare_config Examples.echo_analyzer
               Examples.echo_anonymizer
               (Examples.json (PyDict [("text", PyStr "Jaan Tamm")])) []).1
      = (λ name, Some (PyStr name))
          <$> ["PERSON"; "ORGANIZATION"; "LOCATION"; "DATE_TIME";
               "EMAIL_ADDRESS"; "PHONE_NUMBER"; "URL"; "IP_ADDRESS"]
  ∧ length analyze_fallback_entities = 11%nat
  ∧ length anonymize_fallback_entities = 8%nat
  ∧ entities_to_detect Examples.bare_config anonymize_fallback_entities
      (PyList [PyStr "CREDIT_CARD"]) = Return (PyList [PyStr "CREDIT_CARD"]).
Proof.
  split; [vm_compute; reflexivity|]. split; [vm_compute; reflexivity|].
  repeat split.
Qed.

(** C8 (counterexample).  The analyzer engine refuses the request with an
    exception.  The response is a 500 whose error message holds the text of
    the exception; it is not the generic message of
    [handle_generic_exception]. *)
Lemma analyze_failure_shows_exception :
  analyze Examples.config Examples.refusing_analyzer Examples.str_score
    (Examples.json Examples.scenario1) []
    = (error_response
         "Analysis failed: No matching recognizers were found to serve the request."
         500,
       [(ERROR,
         "Analysis failed: No matching recognizers were found to serve the request.")])
  ∧ contains
      "Analysis failed: No matching recognizers were found to serve the request."
      "No matching recognizers were found to serve the request." = true
  ∧ String.eqb
      "Analysis failed: No matching recognizers were found to serve the request."
      "Internal server error" = false.
Proof. repeat split. Qed.

(** C8 (amended).  An exception raised inside the [try] block of [/analyze]
    or [/anonymize] (a failure of the analyzer engine among them) is
    answered with status 500 and the error message "Analysis failed: " or
    "Anonymization failed: " followed by [str] of the exception, so the
    message holds the exception's text; the same message is logged at error
    level.  Only [handle_generic_exception] answers with the generic
    "Internal server error" and keeps the exception's text for the log. *)
Theorem handler_failure_response :
  ∀ (config : pyval)
    (analyzer_analyze :
       pyval → pyval → pyval → pyval → pyval → outcome (list RecognizerResult))
    (anonymizer_anonymize :
       pyval → list RecognizerResult → gmap string OperatorConfig →
       outcome EngineResult)
    (str_float : float → string) (req : request) (l : log) (e : exn),
    (analyze_try config analyzer_analyze str_float req = Raise e →
     analyze config analyzer_analyze str_float req l
       = (error_response ("Analysis failed: " +:+ str_exn e) 500,
          l ++ [(ERROR, "Analysis failed: " +:+ str_exn e)])
     ∧ contains ("Analysis failed: " +:+ str_exn e) (str_exn e) = true)
    ∧ (anonymize_try config analyzer_analyze anonymizer_anonymize req = Raise e →
       anonymize config analyzer_analyze anonymizer_anonymize req l
         = (error_response ("Anonymization failed: " +:+ str_exn e) 500,
            l ++ [(ERROR, "Anonymization failed: " +:+ str_exn e)])
       ∧ contains ("Anonymization failed: " +:+ str_exn e) (str_exn e) = true)
    ∧ (∀ d text to_detect,
         req = {| is_json := true; get_json := Return (PyDict d) |} →
         lookup_item "text" d = Some text →
         entities_to_detect config analyze_fallback_entities
           (default PyNone (lookup_item "entities" d)) = Return to_detect →
         analyzer_analyze text to_detect
           (default (PyStr "xx") (lookup_item "language" d))
           (default (PyBool false) (lookup_item "return_decision_process" d))
           (default PyNone (lookup_item "correlation_id" d)) = Raise e →
         analyze_try config analyzer_analyze str_float req = Raise e)
    ∧ handle_generic_exception e l
        = (error_response "Internal server error" 500,
           l ++ [(ERROR, "Unexpected error: " +:+ str_exn e)]).
Proof.
  intros config analyzer anonymizer str_float req l e.
  split; [|split; [|split]].
  - intros H. unfold analyze. rewrite H. split; [done|]. apply contains_suffix.
  - intros H. unfold anonymize. rewrite H. split; [done|]. apply contains_suffix.
  - intros d text to_detect -> Htext Hent Hraise.
    rewrite (analyze_try_object config analyzer str_float d text to_detect Htext Hent).
    by rewrite Hraise.
  - reflexivity.
Qed.

Lemma handler_failure_response_witness :
  analyze Examples.config Examples.refusing_analyzer Examples.str_score
    (Examples.json Examples.scenario1) []
    = (error_response
         ("Analysis failed: "
            +:+ "No matching recognizers were found to serve the request.") 500,
       [(ERROR, "Analysis failed: "
                  +:+ "No matching recognizers were found to serve the request.")])
  ∧ anonymize Examples.config Examples.refusing_analyzer Examples.idle_anonymizer
      (Examples.json Examples.scenario1) []
      = (error_response
           ("Anonymization failed: "
              +:+ "No matching recognizers were found to serve the request.") 500,
         [(ERROR, "Anonymization failed: "
                    +:+ "No matching recognizers were found to serve the request.")]).
Proof.
  pose proof (handler_failure_response Examples.config Examples.refusing_analyzer
                Examples.idle_anonymizer Examples.str_score
                (Examples.json Examples.scenario1) []
                (Error "No matching recognizers were found to serve the request."))
    as (Hanalyze & Hanonymize & Htry & _).
  split.
  - apply Hanalyze.
    apply (Htry [("text", PyStr "Jaan Tamm elab Tallinnas.");
                 ("entities", PyList [PyStr "PERSON"; PyStr "LOCATION"])]
             (PyStr "Jaan Tamm elab Tallinnas.")
             (PyList [PyStr "PERSON"; PyStr "LOCATION"])); reflexivity.
  - apply Hanonymize. reflexivity.
Defined.

(** The answer of [/analyze] to a JSON object with a text is its answer to
    what the analyzer engine returns for the text, the resolved entity list
    and the request's other fields. *)
Lemma analyze_object (config : pyval) analyzer (str_float : float → string)
    d text to_detect l :
  lookup_item "text" d = Some text →
  entities_to_detect config analyze_fallback_entities
    (default PyNone (lookup_item "entities" d)) = Return to_detect →
  analyze config analyzer str_float (Examples.json (PyDict d)) l
  = Answers.analyzed str_float text l
      (analyzer text to_detect
         (default (PyStr "xx") (lookup_item "language" d))
         (default (PyBool false) (lookup_item "return_decision_process" d))
         (default PyNone (lookup_item "correlation_id" d))).
Proof.
  intros Htext Hent. unfold analyze, Answers.analyzed, Examples.json.
  rewrite (analyze_try_object config analyzer str_float d text to_detect Htext Hent).
  destruct (analyzer _ _ _ _ _) as [results|e]; simpl; [|done].
  by destruct (jsonify _).
Qed.

(** The same for [/anonymize]. *)
Lemma anonymize_object (config : pyval) analyzer anonymizer d text to_detect l :
  lookup_item "text" d = Some text →
  entities_to_detect config anonymize_fallback_entities
    (default PyNone (lookup_item "entities" d)) = Return to_detect →
  anonymize config analyzer anonymizer (Examples.json (PyDict d)) l
  = Answers.anonymized anonymizer text
      (setup_operators config (default PyNone (lookup_item "anonymizers" d))) l
      (analyzer text to_detect
         (default (PyStr "xx") (lookup_item "language" d))
         (PyBool false) PyNone).
Proof.
  intros Htext Hent. unfold anonymize, Answers.anonymized, Examples.json.
  rewrite (anonymize_try_object config analyzer anonymizer d text to_detect Htext Hent).
  destruct (analyzer _ _ _ _ _) as [results|e]; simpl; [|done].
  destruct (setup_operators _ _) as [operators|e]; simpl; [|done].
  by destruct (anonymizer _ _ _).
Qed.

(** C10.  A JSON object whose [entities] is an empty list is answered by
    [/analyze] and by [/anonymize] exactly as the same object without the
    field: in both cases the entity list is taken from the configuration's
    [entities_to_detect], or is the handler's literal list where the
    configuration has none, and never means that nothing is to be
    detected.  With a configuration that is a mapping and a text in the
    request, that list is the one the analyzer engine is called with, and
    the answer is the handler's answer to what the engine then returns. *)
Theorem empty_entities_as_absent :
  ∀ (config : pyval)
    (analyzer_analyze :
       pyval → pyval → pyval → pyval → pyval → outcome (list RecognizerResult))
    (anonymizer_anonymize :
       pyval → list RecognizerResult → gmap string OperatorConfig →
       outcome EngineResult)
    (str_float : float → string) (d : items) (l : log),
    analyze config analyzer_analyze str_float
      {| is_json := true;
         get_json := Return (PyDict (set_item "entities" (PyList []) d)) |} l
      = analyze config analyzer_analyze str_float
          {| is_json := true;
             get_json := Return (PyDict (del_item "entities" d)) |} l
    ∧ anonymize config analyzer_analyze anonymizer_anonymize
        {| is_json := true;
           get_json := Return (PyDict (set_item "entities" (PyList []) d)) |} l
        = anonymize config analyzer_analyze anonymizer_anonymize
            {| is_json := true;
               get_json := Return (PyDict (del_item "entities" d)) |} l
    ∧ entities_to_detect config analyze_fallback_entities (PyList [])
        = py_get config "entities_to_detect" (str_list analyze_fallback_entities)
    ∧ entities_to_detect config anonymize_fallback_entities (PyList [])
        = py_get config "entities_to_detect" (str_list anonymize_fallback_entities)
    ∧ entities_to_detect config analyze_fallback_entities PyNone
        = py_get config "entities_to_detect" (str_list analyze_fallback_entities)
    ∧ entities_to_detect config anonymize_fallback_entities PyNone
        = py_get config "entities_to_detect" (str_list anonymize_fallback_entities)
    ∧ (∀ c text,
         config = PyDict c → lookup_item "text" d = Some text →
         analyze config analyzer_analyze str_float
           {| is_json := true;
              get_json := Return (PyDict (set_item "entities" (PyList []) d)) |} l
         = Answers.analyzed str_float text l
             (analyzer_analyze text
                (default (str_list analyze_fallback_entities)
                   (lookup_item "entities_to_detect" c))
                (default (PyStr "xx") (lookup_item "language" d))
                (default (PyBool false) (lookup_item "return_decision_process" d))
                (default PyNone (lookup_item "correlation_id" d))))
    ∧ (∀ c text,
         config = PyDict c → lookup_item "text" d = Some text →
         anonymize config analyzer_analyze anonymizer_anonymize
           {| is_json := true;
              get_json := Return (PyDict (set_item "entities" (PyList []) d)) |} l
         = Answers.anonymized anonymizer_anonymize text
             (setup_operators config (default PyNone (lookup_item "anonymizers" d)))
             l
             (analyzer_analyze text
                (default (str_list anonymize_fallback_entities)
                   (lookup_item "entities_to_detect" c))
                (default (PyStr "xx") (lookup_item "language" d))
                (PyBool false) PyNone)).
Proof.
  intros config analyzer anonymizer str_float d l.
  split; [|split; [|split; [|split; [|split; [|split; [|split]]]]]]; try reflexivity.
  - unfold analyze, analyze_try. cbn [is_json get_json negb mbind outcome_bind py_in
      py_getitem py_get].
    rewrite !lookup_set_item_ne, !lookup_del_item_ne by discriminate.
    rewrite lookup_set_item_eq, lookup_del_item_eq. reflexivity.
  - unfold anonymize, anonymize_try. cbn [is_json get_json negb mbind outcome_bind
      py_in py_getitem py_get].
    rewrite !lookup_set_item_ne, !lookup_del_item_ne by discriminate.
    rewrite lookup_set_item_eq, lookup_del_item_eq. reflexivity.
  - intros c text -> Htext.
    rewrite <- (lookup_set_item_ne "entities" "text" (PyList []) d) in Htext
      by discriminate.
    change {| is_json := true;
              get_json := Return (PyDict (set_item "entities" (PyList []) d)) |}
      with (Examples.json (PyDict (set_item "entities" (PyList []) d))).
    rewrite (analyze_object (PyDict c) analyzer str_float _ text
               (default (str_list analyze_fallback_entities)
                  (lookup_item "entities_to_detect" c)) l Htext).
    + by rewrite !(lookup_set_item_ne "entities" "language"),
        !(lookup_set_item_ne "entities" "return_decision_process"),
        !(lookup_set_item_ne "entities" "correlation_id") by discriminate.
    + by rewrite lookup_set_item_eq.
  - intros c text -> Htext.
    rewrite <- (lookup_set_item_ne "entities" "text" (PyList []) d) in Htext
      by discriminate.
    change {| is_json := true;
              get_json := Return (PyDict (set_item "entities" (PyList []) d)) |}
      with (Examples.json (PyDict (set_item "entities" (PyList []) d))).
    rewrite (anonymize_object (PyDict c) analyzer anonymizer _ text
               (default (str_list anonymize_fallback_entities)
                  (lookup_item "entities_to_detect" c)) l Htext).
    + by rewrite !(lookup_set_item_ne "entities" "language"),
        !(lookup_set_item_ne "entities" "anonymizers") by discriminate.
    + by rewrite lookup_set_item_eq.
Qed.

Lemma empty_entities_as_absent_witness :
  analyze Examples.bare_config Examples.echo_analyzer Examples.str_score
    (Examples.json (PyDict [("text", PyStr "Jaan Tamm"); ("entities", PyList [])]))
    []
  = Answers.analyzed Examples.str_score (PyStr "Jaan Tamm") []
      (Examples.echo_analyzer (PyStr "Jaan Tamm")
         (str_list analyze_fallback_entities) (PyStr "xx") (PyBool false) PyNone)
  ∧ length (Spec.entries "results"
              (analyze Examples.bare_config Examples.echo_analyzer
                 Examples.str_score
                 (Examples.json (PyDict [("text", PyStr "Jaan Tamm");
                                         ("entities", PyList [])])) []).1)
    = 11%nat.
Proof.
  pose proof (proj1 (proj2 (proj2 (proj2 (proj2 (proj2 (proj2
                (empty_entities_as_absent Examples.bare_config
                   Examples.echo_analyzer Examples.idle_anonymizer
                   Examples.str_score [("text", PyStr "Jaan Tamm")] []))))))) _
                (PyStr "Jaan Tamm") eq_refl eq_refl) as Hanswer.
  split; [exact Hanswer|]. vm_compute. reflexivity.
Defined.
End HandlerProperties.

(** ** Labels that carry a tag only in front *)

Section TagProperties.
Import Py Estbert.

(** Nothing is replaced where the old string does not occur. *)
Lemma replace_absent (s old new : string) :
  old ≠ "" → contains s old = false → replace s old new = s.
Proof.
  intros Hold. unfold replace. destruct old as [|a old]; [done|]. clear Hold.
  induction s as [|c s IH]; [done|].
  intros Hc.
  change (String.prefix (String a old) (String c s) || contains s (String a old) = false)
    in Hc.
  apply orb_false_iff in Hc as [Hp Hc].
  change (replace_from (String a old) new 0 (String c s))
    with (if String.prefix (String a old) (String c s)
          then new +:+ replace_from (String a old) new
                         (Nat.pred (String.length (String a old))) s
          else String c (replace_from (String a old) new 0 s)).
  rewrite Hp. by rewrite (IH Hc).
Qed.

(** X1.  On a label in which neither marker occurs, [strip_tag] is the identity
    and takes a leading B- or I- off; such a label that the mapping does not
    know is passed on as it is, and PER, ORG and LOC are mapped. *)
Theorem strip_tag_leading_marker :
  ∀ (label : string),
    contains label "B-" = false → contains label "I-" = false →
    strip_tag label = label
    ∧ strip_tag ("B-" +:+ label) = label
    ∧ strip_tag ("I-" +:+ label) = label
    ∧ (label_mapping init !! label = None → presidio_entity init label = label)
    ∧ presidio_entity init "PER" = "PERSON"
    ∧ presidio_entity init "ORG" = "ORGANIZATION"
    ∧ presidio_entity init "LOC" = "LOCATION".
Proof.
  intros label HB HI.
  assert (strip_tag label = label) as Hid.
  { unfold strip_tag. rewrite (replace_absent label "B-" "" ltac:(done) HB).
    by apply replace_absent. }
  split; [exact Hid|]. split; [|split; [|split]].
  - rewrite <- Hid at 2. unfold strip_tag.
    destruct label as [|c label]; [done|].
    by change (replace ("B-" +:+ String c label) "B-" "")
      with (replace (String c label) "B-" "").
  - unfold strip_tag.
    rewrite (replace_absent ("I-" +:+ label) "B-" "" ltac:(done)).
    + destruct label as [|c label]; [done|].
      change (replace ("I-" +:+ String c label) "I-" "")
        with (replace (String c label) "I-" "").
      by apply replace_absent.
    + change (String.prefix "B-" ("I-" +:+ label)
              || (String.prefix "B-" ("-" +:+ label) || contains label "B-") = false).
      by rewrite HB.
  - intros Hnone. unfold presidio_entity. by rewrite Hnone.
  - repeat split.
Qed.

Lemma strip_tag_leading_marker_witness :
  strip_tag "GPE" = "GPE"
  ∧ strip_tag "B-GPE" = "GPE"
  ∧ strip_tag "I-GPE" = "GPE"
  ∧ presidio_entity init "GPE" = "GPE".
Proof.
  destruct (strip_tag_leading_marker "GPE" eq_refl eq_refl)
    as (H1 & H2 & H3 & H4 & _).
  split; [exact H1|]. split; [exact H2|]. split; [exact H3|].
  apply H4. reflexivity.
Defined.
End TagProperties.

(** ** The order and the end of the recognizer's loop *)

Section RecognizerLoop.
Import Py Estbert.

Lemma normalize_raw self entities p :
  normalize self entities (Examples.raw p)
    = Return (if Examples.requested self entities p
              then Some (Examples.result_of self p) else None).
Proof.
  unfold normalize, Examples.requested. simpl.
  by destruct (wanted _ entities).
Qed.

(** The loop on predictions that have their keys, followed by others. *)
Lemma collect_raw self entities ps rest results :
  collect self entities ((Examples.raw <$> ps) ++ rest) results
    = collect self entities rest
        (results ++ (Examples.result_of self
                       <$> filter (λ p, Examples.requested self entities p) ps)).
Proof.
  revert results. induction ps as [|p ps IH]; intros results.
  - simpl. by rewrite app_nil_r.
  - rewrite fmap_cons. simpl. rewrite normalize_raw.
    destruct (Examples.requested self entities p) eqn:Hp.
    + rewrite IH, filter_cons_True by (by rewrite Hp).
      by rewrite fmap_cons, <- app_assoc.
    + rewrite IH, filter_cons_False; [done|rewrite Hp; exact id].
Qed.

(** X2.  When every prediction of the model has its four keys, [analyze]
    returns, in the model's order, one result for each prediction whose
    stripped and mapped label is requested, with the start, the end and the
    score of the prediction; it prints nothing and leaves the model as the
    one call of the pipeline left it. *)
Theorem analyze_in_model_order :
  ∀ (model_state : Type)
    (nlp_pipeline : model_state → string → outcome (list raw_entity) * model_state)
    (self : EstBERTRecognizer) (text : string) (entities : list string)
    (w : world model_state) (predictions : list Examples.prediction)
    (m : model_state),
    nlp_pipeline (model w) text = (Return (Examples.raw <$> predictions), m) →
    analyze nlp_pipeline self text entities w
      = (Examples.result_of self
           <$> filter (λ p, Examples.requested self entities p) predictions,
         {| model := m; stdout := stdout w |}).
Proof.
  intros S pipeline self text entities w predictions m Hcall.
  unfold analyze. rewrite Hcall.
  rewrite <- (app_nil_r (Examples.raw <$> predictions)), collect_raw.
  reflexivity.
Qed.

Lemma analyze_in_model_order_witness :
  analyze Examples.counting_pipeline init "Jaan Tamm elab Tallinnas."
    ["LOCATION"; "PERSON"] Examples.fresh
  = ([Examples.person; Examples.location],
     {| model := 1%nat; stdout := [] |}).
Proof.
  exact (analyze_in_model_order nat Examples.counting_pipeline init
           "Jaan Tamm elab Tallinnas." ["LOCATION"; "PERSON"] Examples.fresh
           [ {| Examples.p_group := "PER"; Examples.p_start := 0;
                Examples.p_end := 9; Examples.p_score := 0.875%float |};
             {| Examples.p_group := "LOC"; Examples.p_start := 15;
                Examples.p_end := 24; Examples.p_score := 0.75%float |} ]
           1%nat eq_refl).
Defined.

(** X3.  A prediction at which the body of the loop raises (a label or,
    for a requested label, a start, end or score that is missing) ends the
    loop: [analyze] returns the results of the predictions before it, drops
    every prediction after it, and prints one line with the exception. *)
Theorem analyze_stops_at_malformed :
  ∀ (model_state : Type)
    (nlp_pipeline : model_state → string → outcome (list raw_entity) * model_state)
    (self : EstBERTRecognizer) (text : string) (entities : list string)
    (w : world model_state) (before : list Examples.prediction)
    (bad : raw_entity) (after : list raw_entity) (e : exn) (m : model_state),
    nlp_pipeline (model w) text
      = (Return ((Examples.raw <$> before) ++ bad :: after), m) →
    normalize self entities bad = Raise e →
    analyze nlp_pipeline self text entities w
      = (Examples.result_of self
           <$> filter (λ p, Examples.requested self entities p) before,
         {| model := m;
            stdout := stdout w ++ ["Error in EstBERT analysis: " +:+ str_exn e] |}).
Proof.
  intros S pipeline self text entities w before bad after e m Hcall Hbad.
  unfold analyze. rewrite Hcall, collect_raw. simpl. by rewrite Hbad.
Qed.

Lemma analyze_stops_at_malformed_witness :
  analyze Examples.careless_pipeline init "Jaan Tamm elab Tallinnas."
    ["PERSON"; "ORGANIZATION"; "LOCATION"] Examples.fresh
  = ([Examples.person],
     {| model := 1%nat; stdout := ["Error in EstBERT analysis: 'score'"] |}).
Proof.
  exact (analyze_stops_at_malformed nat Examples.careless_pipeline init
           "Jaan Tamm elab Tallinnas." ["PERSON"; "ORGANIZATION"; "LOCATION"]
           Examples.fresh
           [ {| Examples.p_group := "PER"; Examples.p_start := 0;
                Examples.p_end := 9; Examples.p_score := 0.875%float |} ]
           Examples.no_score [Examples.tallinnas] (KeyError "score") 1%nat
           eq_refl eq_refl).
Defined.
End RecognizerLoop.

(** ** Which configuration files are accepted, and which load *)

Section ConfigLoading.
Import Py Estbert.

Lemma is_str_true s v : is_str s v = true ↔ v = PyStr s.
Proof.
  destruct v; simpl; try (split; [discriminate|by intros [=]]).
  rewrite String.eqb_eq. split; [by intros ->|by intros [= ->]].
Qed.

(** [section in config], by the type of [config]. *)
Lemma py_in_true section doc :
  py_in section doc = Return true ↔
    match doc with
    | PyDict d => is_Some (lookup_item section d)
    | PyList l => PyStr section ∈ l
    | PyStr text => contains text section = true
    | _ => False
    end.
Proof.
  destruct doc as [| | | |text|l|d|cls]; simpl; try (split; [discriminate|done]).
  - split; [by intros [= ->]|by intros ->].
  - split.
    + intros [= H]. apply existsb_exists in H as (v & Hin & Hv).
      apply is_str_true in Hv as ->. by apply list_elem_of_In.
    + intros Hin. f_equal. apply existsb_exists. exists (PyStr section).
      split; [by apply list_elem_of_In|by apply is_str_true].
  - destruct (lookup_item section d); split;
      first [done | by intros _; eexists | by intros [? [=]]].
Qed.

(** The loop of [validate_config] ends without a missing section exactly
    when every section tests as present. *)
Lemma first_missing_spec sections doc :
  first_missing sections doc = Return None
  ↔ Forall (λ section, py_in section doc = Return true) sections.
Proof.
  induction sections as [|section rest IH]; simpl.
  - split; [constructor|done].
  - rewrite Forall_cons. destruct (py_in section doc) as [[|]|e]; simpl.
    + rewrite IH. split; [by intros H; split|by intros [_ H]].
    + split; [discriminate|by intros [[=] _]].
    + split; [discriminate|by intros [[=] _]].
Qed.

(** [validate_config] on a file that loads. *)
Lemma validate_config_loaded safe_load config_path doc :
  safe_load config_path = Return doc →
  validate_config safe_load config_path
    = match first_missing required_sections doc with
      | Return (Some section) => (false, "Missing required section: " +:+ section)
      | Return None => (true, "Configuration is valid")
      | Raise e => (false, "Configuration error: " +:+ str_exn e)
      end.
Proof. intros Hload. unfold validate_config. by rewrite Hload. Qed.

(** X4.  On a file that loads, [validate_config] goes by the type of the
    document.  A mapping is accepted exactly when the three required
    sections are among its keys, a list exactly when the three names are
    among its elements, a string exactly when the three names occur in it;
    so a list and a string can be accepted.  For null, a boolean, a number
    and an object that is no container the answer is the configuration
    error of the membership test. *)
Theorem validate_config_accepts :
  ∀ (safe_load : string → outcome pyval) (config_path : string) (doc : pyval),
    safe_load config_path = Return doc →
    match doc with
    | PyDict d =>
        validate_config safe_load config_path = (true, "Configuration is valid")
        ↔ Forall (λ section, is_Some (lookup_item section d)) required_sections
    | PyList l =>
        validate_config safe_load config_path = (true, "Configuration is valid")
        ↔ Forall (λ section, PyStr section ∈ l) required_sections
    | PyStr text =>
        validate_config safe_load config_path = (true, "Configuration is valid")
        ↔ Forall (λ section, contains text section = true) required_sections
    | _ =>
        validate_config safe_load config_path
          = (false, "Configuration error: " +:+ str_exn (not_iterable doc))
    end.
Proof.
  intros safe_load config_path doc Hload.
  rewrite (validate_config_loaded _ _ _ Hload).
  assert (first_missing required_sections doc = Return None
          → Forall (λ section, py_in section doc = Return true) required_sections)
    as Hto by apply first_missing_spec.
  assert (Forall (λ section, py_in section doc = Return true) required_sections
          → first_missing required_sections doc = Return None)
    as Hfrom by apply first_missing_spec.
  destruct doc as [| | | |text|l|d|cls]; try reflexivity.
  - split.
    + intros Hvalid. eapply Forall_impl; [apply Hto|].
      * by destruct (first_missing required_sections (PyStr text)) as [[?|]|?].
      * intros section Hin. by apply (py_in_true section (PyStr text)).
    + intros Hall. rewrite Hfrom; [done|].
      eapply Forall_impl; [exact Hall|].
      intros section Hin. by apply (py_in_true section (PyStr text)).
  - split.
    + intros Hvalid. eapply Forall_impl; [apply Hto|].
      * by destruct (first_missing required_sections (PyList l)) as [[?|]|?].
      * intros section Hin. by apply (py_in_true section (PyList l)).
    + intros Hall. rewrite Hfrom; [done|].
      eapply Forall_impl; [exact Hall|].
      intros section Hin. by apply (py_in_true section (PyList l)).
  - split.
    + intros Hvalid. eapply Forall_impl; [apply Hto|].
      * by destruct (first_missing required_sections (PyDict d)) as [[?|]|?].
      * intros section Hin. by apply (py_in_true section (PyDict d)).
    + intros Hall. rewrite Hfrom; [done|].
      eapply Forall_impl; [exact Hall|].
      intros section Hin. by apply (py_in_true section (PyDict d)).
Qed.

Lemma validate_config_accepts_witness :
  validate_config
    (Examples.holding
       (PyList [PyStr "estbert_configuration"; PyStr "nlp_configuration";
                PyStr "supported_languages"]))
    "presidio-stanza-estbert.yml"
  = (true, "Configuration is valid")
  ∧ validate_config (Examples.holding (PyInt 7)) "presidio-stanza-estbert.yml"
    = (false, "Configuration error: argument of type 'int' is not iterable").
Proof.
  split.
  - apply (proj2 (validate_config_accepts
                    (Examples.holding
                       (PyList [PyStr "estbert_configuration";
                                PyStr "nlp_configuration";
                                PyStr "supported_languages"]))
                    "presidio-stanza-estbert.yml" _ eq_refl)).
    repeat constructor.
  - exact (validate_config_accepts (Examples.holding (PyInt 7))
             "presidio-stanza-estbert.yml" (PyInt 7) eq_refl).
Defined.

(** What a load that returns has read. *)
Lemma load_returns_inv (L : Libraries) safe_load config_path analyzer :
  load_presidio_from_config L safe_load config_path = Return analyzer →
  ∃ d nlp languages est model_name,
    safe_load config_path = Return (PyDict d)
    ∧ lookup_item "nlp_configuration" d = Some nlp
    ∧ lookup_item "supported_languages" d = Some languages
    ∧ lookup_item "estbert_configuration" d = Some (PyDict est)
    ∧ lookup_item "model_name" est = Some model_name.
Proof.
  unfold load_presidio_from_config.
  destruct (safe_load config_path) as [[| | | | | |d|cls]|e]; simpl; try done.
  destruct (lookup_item "nlp_configuration" d) as [nlp|] eqn:Hnlp; simpl; [|done].
  destruct (create_engine L nlp) as [engine|e]; simpl; [|done].
  destruct (lookup_item "supported_languages" d) as [languages|] eqn:Hlang;
    simpl; [|done].
  destruct (new_analyzer L engine languages _) as [a|e]; simpl; [|done].
  destruct (lookup_item "estbert_configuration" d) as [[| | | | | |est|cls]|] eqn:Hest;
    simpl; try done.
  destruct (lookup_item "model_name" est) as [model_name|] eqn:Hname;
    simpl; [|done].
  intros _. by exists d, nlp, languages, est, model_name.
Qed.

(** X5.  A configuration file from which [load_presidio_from_config]
    returns an analyzer is one that [validate_config] accepts: it is a
    mapping with the three required sections, and its model section is a
    mapping with a model name. *)
Theorem load_needs_valid_config :
  ∀ (L : Libraries) (safe_load : string → outcome pyval) (config_path : string)
    (analyzer : AnalyzerEngine L),
    load_presidio_from_config L safe_load config_path = Return analyzer →
    validate_config safe_load config_path = (true, "Configuration is valid")
    ∧ ∃ d est model_name,
        safe_load config_path = Return (PyDict d)
        ∧ Forall (λ section, is_Some (lookup_item section d)) required_sections
        ∧ lookup_item "estbert_configuration" d = Some (PyDict est)
        ∧ lookup_item "model_name" est = Some model_name.
Proof.
  intros L safe_load config_path analyzer Hload.
  apply load_returns_inv in Hload
    as (d & nlp & languages & est & model_name & Hd & Hnlp & Hlang & Hest & Hname).
  assert (Forall (λ section, is_Some (lookup_item section d)) required_sections)
    as Hall.
  { repeat constructor; by eexists. }
  split.
  - rewrite (validate_config_loaded _ _ _ Hd).
    by rewrite (first_missing_none d required_sections Hall).
  - by exists d, est, model_name.
Qed.

Lemma load_needs_valid_config_witness :
  validate_config (Examples.holding Examples.config) "presidio-stanza-estbert.yml"
  = (true, "Configuration is valid").
Proof.
  exact (proj1 (load_needs_valid_config Examples.plain_libraries
                  (Examples.holding Examples.config)
                  "presidio-stanza-estbert.yml" ["EstBERT_NER_Recognizer"]
                  eq_refl)).
Defined.

(** X6.  Acceptance by [validate_config] does not make the load succeed:
    on a mapping with the three required sections whose model section is a
    mapping without a model name, with libraries that build the NLP engine
    and the analyzer, [load_presidio_from_config] raises the [KeyError] of
    [model_name]. *)
Theorem accepted_config_without_model_name :
  ∀ (L : Libraries) (safe_load : string → outcome pyval) (config_path : string)
    (d est : items),
    safe_load config_path = Return (PyDict d) →
    Forall (λ section, is_Some (lookup_item section d)) required_sections →
    lookup_item "estbert_configuration" d = Some (PyDict est) →
    lookup_item "model_name" est = None →
    (∀ nlp_configuration, ∃ engine,
       create_engine L nlp_configuration = Return engine) →
    (∀ engine languages threshold, ∃ analyzer,
       new_analyzer L engine languages threshold = Return analyzer) →
    validate_config safe_load config_path = (true, "Configuration is valid")
    ∧ load_presidio_from_config L safe_load config_path
        = Raise (KeyError "model_name").
Proof.
  intros L safe_load config_path d est Hd Hall Hest Hname Hengine Hanalyzer.
  split.
  - rewrite (validate_config_loaded _ _ _ Hd).
    by rewrite (first_missing_none d required_sections Hall).
  - unfold load_presidio_from_config. rewrite Hd. simpl.
    apply Forall_cons in Hall as [[languages Hlang] Hall].
    apply Forall_cons in Hall as [[nlp Hnlp] _].
    rewrite Hnlp. simpl. destruct (Hengine nlp) as [engine ->]. simpl.
    rewrite Hlang. simpl.
    destruct (Hanalyzer engine languages
                (default (PyFloat 0.5%float)
                   (lookup_item "default_score_threshold" d))) as [a ->].
    simpl. rewrite Hest. simpl. by rewrite Hname.
Qed.

Lemma accepted_config_without_model_name_witness :
  validate_config (Examples.holding Examples.nameless_config)
    "presidio-stanza-estbert.yml" = (true, "Configuration is valid")
  ∧ load_presidio_from_config Examples.plain_libraries
      (Examples.holding Examples.nameless_config) "presidio-stanza-estbert.yml"
      = Raise (KeyError "model_name").
Proof.
  apply (accepted_config_without_model_name Examples.plain_libraries
           (Examples.holding Examples.nameless_config)
           "presidio-stanza-estbert.yml"
           [("supported_languages", PyList [PyStr "xx"]);
            ("nlp_configuration", PyDict [("nlp_engine_name", PyStr "stanza")]);
            ("estbert_configuration", PyDict [])] []).
  - reflexivity.
  - repeat constructor; by eexists.
  - reflexivity.
  - reflexivity.
  - intros c. by eexists.
  - intros e l t. by eexists.
Defined.
End ConfigLoading.

(** ** Starting the server *)

Section StartupProperties.
Import Py Estbert App.

(** X7.  When [validate_config] rejects the configuration file,
    [create_app] builds no engine: it raises a [ValueError] whose text is
    the message of [validate_config] after "Invalid configuration: ", and
    logs two errors with that text, the one of [_initialize_engines] and
    then its own; the banner is not logged. *)
Theorem create_app_rejects_invalid_config :
  ∀ (L : Libraries) (safe_load : string → outcome pyval)
    (AnonymizerEngine : Type) (new_anonymizer : outcome AnonymizerEngine)
    (config_path : string) (l : log) (message : string),
    validate_config safe_load config_path = (false, message) →
    create_app L safe_load AnonymizerEngine new_anonymizer config_path l
    = (Failed (ValueError ("Invalid configuration: " +:+ message)),
       l ++ [(ERROR, "Failed to initialize Presidio engines: Invalid configuration: "
                       +:+ message);
             (ERROR, "Failed to create application: Invalid configuration: "
                       +:+ message)]).
Proof.
  intros L safe_load AE new_anonymizer config_path l message Hvalid.
  unfold create_app, new_server, initialize_engines, initialize_engines_try.
  rewrite Hvalid. simpl. unfold logger_error. by rewrite <- app_assoc.
Qed.

Lemma create_app_rejects_invalid_config_witness :
  create_app Examples.plain_libraries (Examples.holding PyNone) unit (Return ())
    "presidio-stanza-estbert.yml" []
  = (Failed (ValueError ("Invalid configuration: "
       +:+ "Configuration error: argument of type 'NoneType' is not iterable")),
     [(ERROR, "Failed to initialize Presidio engines: Invalid configuration: "
                +:+ "Configuration error: argument of type 'NoneType' is not iterable");
      (ERROR, "Failed to create application: Invalid configuration: "
                +:+ "Configuration error: argument of type 'NoneType' is not iterable")]).
Proof.
  exact (create_app_rejects_invalid_config Examples.plain_libraries
           (Examples.holding PyNone) unit (Return ())
           "presidio-stanza-estbert.yml" []
           "Configuration error: argument of type 'NoneType' is not iterable"
           eq_refl).
Defined.

(** What [create_app] has done when it returns a server. *)
Lemma create_app_started_inv (L : Libraries) safe_load (AE : Type)
    (new_anonymizer : outcome AE) config_path l s l' :
  create_app L safe_load AE new_anonymizer config_path l = (Started s, l') →
  l' = l ++ [(INFO, "Initializing Presidio Analyzer with EstBERT + Stanza...");
             (INFO, "Initializing Presidio Anonymizer...");
             (INFO, "Presidio engines initialized successfully");
             (INFO, WELCOME_MESSAGE)]
  ∧ self_config_path s = config_path
  ∧ safe_load config_path = Return (self_config s)
  ∧ load_presidio_from_config L safe_load config_path = Return (self_analyzer s)
  ∧ new_anonymizer = Return (self_anonymizer s).
Proof.
  unfold create_app, new_server, initialize_engines, initialize_engines_try.
  destruct (validate_config safe_load config_path) as [[|] message];
    cbn [negb]; [|by intros [=]].
  destruct (safe_load config_path) as [config|e]; [|by intros [=]].
  destruct (load_presidio_from_config L safe_load config_path) as [analyzer|e];
    [|by intros [=]].
  destruct new_anonymizer as [anonymizer|e]; [|by intros [=]].
  intros [= <- <-]. cbn [self_config_path self_config self_analyzer self_anonymizer].
  split; [|done]. unfold logger_info. by rewrite <- !app_assoc.
Qed.

(** X8.  When [create_app] returns a server, the log has grown by four
    information records, the banner last, and by no error; the server's
    configuration is the document of the file it was given, a mapping with
    the three required sections whose model section names a model; its
    analyzer is the one [load_presidio_from_config] returned for that
    file. *)
Theorem create_app_started :
  ∀ (L : Libraries) (safe_load : string → outcome pyval)
    (AnonymizerEngine : Type) (new_anonymizer : outcome AnonymizerEngine)
    (config_path : string) (l l' : log) (s : server L AnonymizerEngine),
    create_app L safe_load AnonymizerEngine new_anonymizer config_path l
      = (Started s, l') →
    l' = l ++ [(INFO, "Initializing Presidio Analyzer with EstBERT + Stanza...");
               (INFO, "Initializing Presidio Anonymizer...");
               (INFO, "Presidio engines initialized successfully");
               (INFO, WELCOME_MESSAGE)]
    ∧ safe_load config_path = Return (self_config s)
    ∧ load_presidio_from_config L safe_load config_path
        = Return (self_analyzer s)
    ∧ ∃ d est model_name,
        self_config s = PyDict d
        ∧ Forall (λ section, is_Some (lookup_item section d)) required_sections
        ∧ lookup_item "estbert_configuration" d = Some (PyDict est)
        ∧ lookup_item "model_name" est = Some model_name.
Proof.
  intros L safe_load AE new_anonymizer config_path l l' s Hstart.
  apply create_app_started_inv in Hstart as (Hlog & _ & Hconfig & Hload & _).
  split; [exact Hlog|]. split; [exact Hconfig|]. split; [exact Hload|].
  apply load_returns_inv in Hload
    as (d & nlp & languages & est & model_name & Hd & Hnlp & Hlang & Hest & Hname).
  exists d, est, model_name. split; [congruence|].
  split; [|done]. repeat constructor; by eexists.
Qed.

Lemma create_app_started_witness :
  (snd (create_app Examples.plain_libraries (Examples.holding Examples.config)
          unit (Return ()) "presidio-stanza-estbert.yml" []))
  = [(INFO, "Initializing Presidio Analyzer with EstBERT + Stanza...");
     (INFO, "Initializing Presidio Anonymizer...");
     (INFO, "Presidio engines initialized successfully");
     (INFO, WELCOME_MESSAGE)].
Proof.
  exact (proj1 (create_app_started Examples.plain_libraries
                  (Examples.holding Examples.config) unit (Return ())
                  "presidio-stanza-estbert.yml" [] _
                  {| self_config_path := "presidio-stanza-estbert.yml";
                     self_config := Examples.config;
                     self_analyzer := ["EstBERT_NER_Recognizer"];
                     self_anonymizer := () |}
                  eq_refl)).
Defined.


End StartupProperties.

(** ** The routes that only read *)

Section RouteProperties.
Import Py App.

(** A comprehension that returns ran over mappings, and has the entry of
    each in order. *)
Lemma recognizer_summaries_inv recs summaries :
  recognizer_summaries recs = Return summaries →
  ∃ objects,
    recs = PyDict <$> objects
    ∧ summaries
        = (λ rec, PyDict [("name", default PyNone (lookup_item "name" rec));
                          ("type", default PyNone (lookup_item "type" rec));
                          ("supported_entity",
                           default PyNone (lookup_item "supported_entity" rec))])
            <$> objects.
Proof.
  revert summaries. induction recs as [|rec rest IH]; intros summaries; simpl.
  - intros [= <-]. by exists [].
  - destruct rec as [| | | | | |rec|cls]; simpl; try done.
    destruct (recognizer_summaries rest) as [tail|e]; simpl; [|done].
    intros [= <-]. destruct (IH tail eq_refl) as (objects & -> & ->).
    by exists (rec :: objects).
Qed.

(** X10.  Every answer of the [try] block of [/config] has status 200 and
    a body with six keys and no other, whose values are these: the
    configured [supported_languages], [default_score_threshold] and
    [entities_to_detect] (null where the configuration has none), the
    [model_name] of the model section, the [nlp_engine_name] of the NLP
    section, and for each custom recognizer, in order, an object with its
    [name], [type] and [supported_entity] only (null where it has none).
    Nothing else of the configuration is in the answer. *)
Theorem get_configuration_discloses :
  ∀ (config : pyval) (resp : response),
    get_configuration_try config = Return resp →
    ∃ d est nlp recs,
      config = PyDict d
      ∧ default (PyDict []) (lookup_item "estbert_configuration" d) = PyDict est
      ∧ default (PyDict []) (lookup_item "nlp_configuration" d) = PyDict nlp
      ∧ py_iter (default (PyList []) (lookup_item "custom_recognizers" d))
          = Return (PyDict <$> recs)
      ∧ resp
          = {| body :=
                 PyDict
                   [("supported_languages",
                     default PyNone (lookup_item "supported_languages" d));
                    ("default_score_threshold",
                     default PyNone (lookup_item "default_score_threshold" d));
                    ("entities_to_detect",
                     default PyNone (lookup_item "entities_to_detect" d));
                    ("estbert_model",
                     default PyNone (lookup_item "model_name" est));
                    ("nlp_engine",
                     default PyNone (lookup_item "nlp_engine_name" nlp));
                    ("custom_recognizers",
                     PyList
                       ((λ rec,
                           PyDict
                             [("name", default PyNone (lookup_item "name" rec));
                              ("type", default PyNone (lookup_item "type" rec));
                              ("supported_entity",
                               default PyNone
                                 (lookup_item "supported_entity" rec))])
                          <$> recs))];
               status := 200 |}.
Proof.
  intros config resp. unfold get_configuration_try.
  destruct config as [| | | | | |d|cls]; simpl; try done.
  destruct (default (PyDict []) (lookup_item "estbert_configuration" d))
    as [| | | | | |est|cls] eqn:Hest; simpl; try done.
  destruct (default (PyDict []) (lookup_item "nlp_configuration" d))
    as [| | | | | |nlp|cls] eqn:Hnlp; simpl; try done.
  destruct (py_iter _) as [recs|e] eqn:Hiter; simpl; [|done].
  destruct (recognizer_summaries recs) as [summaries|e] eqn:Hsum; simpl; [|done].
  intros [= <-].
  apply recognizer_summaries_inv in Hsum as (objects & -> & ->).
  by exists d, est, nlp, objects.
Qed.

Lemma get_configuration_discloses_witness :
  ∃ d est nlp recs,
    Examples.config = PyDict d
    ∧ default (PyDict []) (lookup_item "estbert_configuration" d) = PyDict est
    ∧ default (PyDict []) (lookup_item "nlp_configuration" d) = PyDict nlp
    ∧ py_iter (default (PyList []) (lookup_item "custom_recognizers" d))
        = Return (PyDict <$> recs)
    ∧ {| body :=
           PyDict [("supported_languages", PyList [PyStr "xx"]);
                   ("default_score_threshold", PyNone);
                   ("entities_to_detect", PyNone);
                   ("estbert_model", PyStr "tartuNLP/EstBERT_NER");
                   ("nlp_engine", PyStr "stanza");
                   ("custom_recognizers", PyList [])];
         status := 200 |}
        = {| body :=
               PyDict
                 [("supported_languages",
                   default PyNone (lookup_item "supported_languages" d));
                  ("default_score_threshold",
                   default PyNone (lookup_item "default_score_threshold" d));
                  ("entities_to_detect",
                   default PyNone (lookup_item "entities_to_detect" d));
                  ("estbert_model",
                   default PyNone (lookup_item "model_name" est));
                  ("nlp_engine",
                   default PyNone (lookup_item "nlp_engine_name" nlp));
                  ("custom_recognizers",
                   PyList
                     ((λ rec,
                         PyDict
                           [("name", default PyNone (lookup_item "name" rec));
                            ("type", default PyNone (lookup_item "type" rec));
                            ("supported_entity",
                             default PyNone
                               (lookup_item "supported_entity" rec))])
                        <$> recs))];
             status := 200 |}.
Proof.
  exact (get_configuration_discloses Examples.config _ eq_refl).
Defined.

(** The comprehension stops at the first recognizer that is no mapping. *)
Lemma recognizer_summaries_stops before v after :
  Forall (λ rec, is_dict rec = true) before →
  is_dict v = false →
  recognizer_summaries (before ++ v :: after) = Raise (no_attribute v "get").
Proof.
  intros Hbefore Hv. induction Hbefore as [|rec before Hrec _ IH]; simpl.
  - by destruct v.
  - destruct rec; try done. simpl. by rewrite IH.
Qed.

(** The [try] block of [/config] fails as its comprehension does. *)
Lemma get_configuration_try_fails d custom e :
  is_dict (default (PyDict []) (lookup_item "estbert_configuration" d)) = true →
  is_dict (default (PyDict []) (lookup_item "nlp_configuration" d)) = true →
  lookup_item "custom_recognizers" d = Some custom →
  py_iter custom ≫= recognizer_summaries = Raise e →
  get_configuration_try (PyDict d) = Raise e.
Proof.
  intros Hest Hnlp Hcustom Hfail. unfold get_configuration_try. simpl.
  destruct (default (PyDict []) (lookup_item "estbert_configuration" d));
    try done.
  destruct (default (PyDict []) (lookup_item "nlp_configuration" d));
    try done.
  simpl. rewrite Hcustom. simpl.
  destruct (py_iter custom) as [recs|e']; simpl in *; [|congruence].
  destruct (recognizer_summaries recs); simpl; congruence.
Qed.

(** X11.  With a model section and an NLP section that are mappings or
    absent, [/config] answers 500 with the text of the exception, and logs
    it as an error, when [custom_recognizers] is present but empty (null),
    and when it is a list one of whose entries is not a mapping (the first
    such entry is named). *)
Theorem get_configuration_bad_recognizers :
  ∀ (d : items) (l : log) (custom : pyval),
    is_dict (default (PyDict []) (lookup_item "estbert_configuration" d)) = true →
    is_dict (default (PyDict []) (lookup_item "nlp_configuration" d)) = true →
    lookup_item "custom_recognizers" d = Some custom →
    (custom = PyNone →
     get_configuration (PyDict d) l
       = (error_response
            "Failed to get configuration: 'NoneType' object is not iterable" 500,
          l ++ [(ERROR,
                 "Failed to get configuration: 'NoneType' object is not iterable")]))
    ∧ (∀ before v after,
         custom = PyList (before ++ v :: after) →
         Forall (λ rec, is_dict rec = true) before →
         is_dict v = false →
         get_configuration (PyDict d) l
           = (error_response
                ("Failed to get configuration: " +:+ str_exn (no_attribute v "get"))
                500,
              l ++ [(ERROR, "Failed to get configuration: "
                              +:+ str_exn (no_attribute v "get"))])).
Proof.
  intros d l custom Hest Hnlp Hcustom. split.
  - intros ->. unfold get_configuration.
    by rewrite (get_configuration_try_fails d PyNone
                  (TypeError "'NoneType' object is not iterable") Hest Hnlp Hcustom).
  - intros before v after -> Hbefore Hv. unfold get_configuration.
    rewrite (get_configuration_try_fails d _ (no_attribute v "get") Hest Hnlp Hcustom);
      [done|].
    simpl. by apply recognizer_summaries_stops.
Qed.

Lemma get_configuration_bad_recognizers_witness :
  get_configuration
    (PyDict [("supported_languages", PyList [PyStr "xx"]);
             ("nlp_configuration", PyDict [("nlp_engine_name", PyStr "stanza")]);
             ("estbert_configuration",
              PyDict [("model_name", PyStr "tartuNLP/EstBERT_NER")]);
             ("custom_recognizers", PyNone)]) []
  = (error_response
       "Failed to get configuration: 'NoneType' object is not iterable" 500,
     [(ERROR, "Failed to get configuration: 'NoneType' object is not iterable")])
  ∧ get_configuration
      (PyDict [("supported_languages", PyList [PyStr "xx"]);
               ("nlp_configuration", PyDict [("nlp_engine_name", PyStr "stanza")]);
               ("estbert_configuration",
                PyDict [("model_name", PyStr "tartuNLP/EstBERT_NER")]);
               ("custom_recognizers", PyList [PyDict []; PyStr "iban"])]) []
    = (error_response
         "Failed to get configuration: 'str' object has no attribute 'get'" 500,
       [(ERROR, "Failed to get configuration: 'str' object has no attribute 'get'")]).
Proof.
  split.
  - apply (proj1 (get_configuration_bad_recognizers
                    [("supported_languages", PyList [PyStr "xx"]);
                     ("nlp_configuration",
                      PyDict [("nlp_engine_name", PyStr "stanza")]);
                     ("estbert_configuration",
                      PyDict [("model_name", PyStr "tartuNLP/EstBERT_NER")]);
                     ("custom_recognizers", PyNone)] [] PyNone
                    eq_refl eq_refl eq_refl)).
    reflexivity.
  - apply (proj2 (get_configuration_bad_recognizers
                    [("supported_languages", PyList [PyStr "xx"]);
                     ("nlp_configuration",
                      PyDict [("nlp_engine_name", PyStr "stanza")]);
                     ("estbert_configuration",
                      PyDict [("model_name", PyStr "tartuNLP/EstBERT_NER")]);
                     ("custom_recognizers", PyList [PyDict []; PyStr "iban"])]
                    [] (PyList [PyDict []; PyStr "iban"])
                    eq_refl eq_refl eq_refl)
             [PyDict []] (PyStr "iban") []).
    + reflexivity.
    + by repeat constructor.
    + reflexivity.
Defined.

(** X12.  An answer of [/recognizers] or [/supportedentities] with status
    200 leaves the log as it was, echoes the language asked for (xx when the
    query names none), and its [count] is the number of entries of its list;
    the entries are the names of the engine's recognizers, or the engine's
    entities, in the engine's order. *)
Theorem listing_counts :
  ∀ (get_recognizers : string → outcome (list EntityRecognizer))
    (get_supported_entities : string → outcome (list string))
    (args : list (string * string)) (l : log),
    (∀ found,
       get_recognizers (language_of args) = Return found →
       let answer := recognizers get_recognizers args l in
       answer.2 = l
       ∧ status answer.1 = 200
       ∧ Spec.entries "recognizers" answer.1 = PyStr <$> (name <$> found)
       ∧ Spec.field "language" (body answer.1) = Some (PyStr (language_of args))
       ∧ Spec.field "count" (body answer.1)
           = Some (PyInt (Z.of_nat (length (Spec.entries "recognizers" answer.1)))))
    ∧ (∀ found,
         get_supported_entities (language_of args) = Return found →
         let answer := supported_entities get_supported_entities args l in
         answer.2 = l
         ∧ status answer.1 = 200
         ∧ Spec.entries "entities" answer.1 = PyStr <$> found
         ∧ Spec.field "language" (body answer.1) = Some (PyStr (language_of args))
         ∧ Spec.field "count" (body answer.1)
             = Some (PyInt (Z.of_nat (length (Spec.entries "entities" answer.1))))).
Proof.
  intros get_recognizers get_supported_entities args l. split.
  - intros found Hfound. unfold recognizers. rewrite Hfound. simpl.
    repeat split. unfold Spec.entries. simpl. by rewrite !length_fmap.
  - intros found Hfound. unfold supported_entities. rewrite Hfound. simpl.
    repeat split. unfold Spec.entries. simpl. by rewrite !length_fmap.
Qed.

Lemma listing_counts_witness :
  Spec.field "count"
    (body (recognizers
             (λ _, Return [ {| name := "EstBERT_NER_Recognizer" |};
                            {| name := "EmailRecognizer" |} ])
             [("language", "et")] []).1)
  = Some (PyInt 2)
  ∧ Spec.field "language"
      (body (supported_entities (λ _, Return ["PERSON"; "LOCATION"; "IBAN_CODE"])
               [] []).1)
    = Some (PyStr "xx").
Proof.
  split.
  - exact (proj2 (proj2 (proj2 (proj2
             (proj1 (listing_counts
                       (λ _, Return [ {| name := "EstBERT_NER_Recognizer" |};
                                      {| name := "EmailRecognizer" |} ])
                       (λ _, Return []) [("language", "et")] []) _ eq_refl))))).
  - exact (proj1 (proj2 (proj2 (proj2
             (proj2 (listing_counts (λ _, Return [])
                       (λ _, Return ["PERSON"; "LOCATION"; "IBAN_CODE"]) [] [])
                _ eq_refl))))).
Defined.
End RouteProperties.

(** ** The answers of [/analyze] and [/anonymize], case by case *)

Section HandlerCases.
Import Py App.

Variable config : pyval.
Variable analyzer_analyze :
  pyval → pyval → pyval → pyval → pyval → outcome (list RecognizerResult).
Variable anonymizer_anonymize :
  pyval → list RecognizerResult → gmap string OperatorConfig → outcome EngineResult.
Variable str_float : float → string.

(** The three ways in which the [try] block of [/analyze] returns. *)
Lemma analyze_try_returns req resp :
  analyze_try config analyzer_analyze str_float req = Return resp →
  (is_json req = false ∧ resp = error_response "Request must be JSON" 400)
  ∨ (is_json req = true
     ∧ ∃ data, get_json req = Return data ∧ py_in "text" data = Return false
               ∧ resp = error_response "Missing required field: text" 400)
  ∨ (is_json req = true
     ∧ ∃ d text results,
         get_json req = Return (PyDict d) ∧ lookup_item "text" d = Some text
         ∧ resp = {| body := PyDict [("results",
                                      PyList ((λ r, PyDict (result_dict str_float r))
                                                <$> results));
                                     ("text", text)];
                     status := 200 |}).
Proof.
  unfold analyze_try. destruct (is_json req); simpl; [|intros [= <-]; by left].
  destruct (get_json req) as [data|e]; simpl; [|done].
  destruct (py_in "text" data) as [[|]|e] eqn:Hin; simpl; [| |done].
  - destruct data as [| | | | | |d|cls]; simpl in *; try done.
    destruct (lookup_item "text" d) as [text|] eqn:Htext; simpl; [|done].
    destruct (entities_to_detect _ _ _) as [to_detect|e]; simpl; [|done].
    destruct (analyzer_analyze _ _ _ _ _) as [results|e]; simpl; [|done].
    unfold jsonify. destruct (unserializable _); simpl; [done|].
    intros [= <-]. right. right. split; [done|]. by exists d, text, results.
  - intros [= <-]. right. left. split; [done|]. by exists data.
Qed.

(** The same for [/anonymize]. *)
Lemma anonymize_try_returns req resp :
  anonymize_try config analyzer_analyze anonymizer_anonymize req = Return resp →
  (is_json req = false ∧ resp = error_response "Request must be JSON" 400)
  ∨ (is_json req = true
     ∧ ∃ data, get_json req = Return data ∧ py_in "text" data = Return false
               ∧ resp = error_response "Missing required field: text" 400)
  ∨ (is_json req = true
     ∧ ∃ d text anonymized,
         get_json req = Return (PyDict d) ∧ lookup_item "text" d = Some text
         ∧ resp = {| body := PyDict [("text", PyStr (result_text anonymized));
                                     ("items",
                                      PyList (item_dict <$> result_items anonymized))];
                     status := 200 |}).
Proof.
  unfold anonymize_try. destruct (is_json req); simpl; [|intros [= <-]; by left].
  destruct (get_json req) as [data|e]; simpl; [|done].
  destruct (py_in "text" data) as [[|]|e] eqn:Hin; simpl; [| |done].
  - destruct data as [| | | | | |d|cls]; simpl in *; try done.
    destruct (lookup_item "text" d) as [text|] eqn:Htext; simpl; [|done].
    destruct (entities_to_detect _ _ _) as [to_detect|e]; simpl; [|done].
    destruct (analyzer_analyze _ _ _ _ _) as [results|e]; simpl; [|done].
    destruct (setup_operators _ _) as [operators|e]; simpl; [|done].
    destruct (anonymizer_anonymize _ _ _) as [anonymized|e]; simpl; [|done].
    intros [= <-]. right. right. split; [done|]. by exists d, text, anonymized.
  - intros [= <-]. right. left. split; [done|]. by exists data.
Qed.
End HandlerCases.

Section HandlerAnswers.
Import Py App Answers.

(** X13.  [/analyze] and [/anonymize] answer 400 in two cases and no
    other: the request is not JSON, or its body tests as not holding
    [text] (a mapping without that key, a list without that element, a
    string without that substring). *)
Theorem bad_request_iff :
  ∀ (config : pyval)
    (analyzer_analyze :
       pyval → pyval → pyval → pyval → pyval → outcome (list RecognizerResult))
    (anonymizer_anonymize :
       pyval → list RecognizerResult → gmap string OperatorConfig →
       outcome EngineResult)
    (str_float : float → string) (req : request) (l : log),
    (status (analyze config analyzer_analyze str_float req l).1 = 400
     ↔ is_json req = false
       ∨ ∃ data, get_json req = Return data ∧ py_in "text" data = Return false)
    ∧ (status (anonymize config analyzer_analyze anonymizer_anonymize req l).1 = 400
       ↔ is_json req = false
         ∨ ∃ data, get_json req = Return data ∧ py_in "text" data = Return false).
Proof.
  intros config analyzer anonymizer str_float req l. split; split.
  - unfold analyze.
    destruct (analyze_try config analyzer str_float req) as [resp|e] eqn:Htry;
      simpl; [|done].
    apply analyze_try_returns in Htry
      as [[Hj ->]|[[Hj (data & Hd & Hin & ->)]|[Hj (d & text & results & _ & _ & ->)]]];
      simpl; [by left|by right; exists data|done].
  - intros Hcase. unfold analyze, analyze_try.
    destruct (is_json req); simpl; [|done].
    destruct Hcase as [?|(data & -> & Hin)]; [done|]. simpl. by rewrite Hin.
  - unfold anonymize.
    destruct (anonymize_try config analyzer anonymizer req) as [resp|e] eqn:Htry;
      simpl; [|done].
    apply anonymize_try_returns in Htry
      as [[Hj ->]|[[Hj (data & Hd & Hin & ->)]|[Hj (d & text & results & _ & _ & ->)]]];
      simpl; [by left|by right; exists data|done].
  - intros Hcase. unfold anonymize, anonymize_try.
    destruct (is_json req); simpl; [|done].
    destruct Hcase as [?|(data & -> & Hin)]; [done|]. simpl. by rewrite Hin.
Qed.

(** X14.  Every answer of [/analyze] and of [/anonymize] has status 200,
    400 or 500.  With 200 and 400 the log is left as it was; with 500 the
    body is an object with the one key [error], and the log has grown by
    exactly one error record, whose text is that of the body. *)
Theorem handler_status_and_log :
  ∀ (config : pyval)
    (analyzer_analyze :
       pyval → pyval → pyval → pyval → pyval → outcome (list RecognizerResult))
    (anonymizer_anonymize :
       pyval → list RecognizerResult → gmap string OperatorConfig →
       outcome EngineResult)
    (str_float : float → string) (req : request) (l : log),
    Forall (λ answer : response * log,
      ((status answer.1 = 200 ∨ status answer.1 = 400) ∧ answer.2 = l)
      ∨ (status answer.1 = 500
         ∧ ∃ msg, body answer.1 = PyDict [("error", PyStr msg)]
                  ∧ answer.2 = l ++ [(ERROR, msg)]))
      [analyze config analyzer_analyze str_float req l;
       anonymize config analyzer_analyze anonymizer_anonymize req l].
Proof.
  intros config analyzer anonymizer str_float req l.
  constructor; [|constructor; [|constructor]].
  - unfold analyze.
    destruct (analyze_try config analyzer str_float req) as [resp|e] eqn:Htry; simpl.
    + left. split; [|done].
      apply analyze_try_returns in Htry
        as [[_ ->]|[[_ (data & _ & _ & ->)]|[_ (d & text & results & _ & _ & ->)]]];
        simpl; auto.
    + right. split; [done|]. by eexists.
  - unfold anonymize.
    destruct (anonymize_try config analyzer anonymizer req) as [resp|e] eqn:Htry;
      simpl.
    + left. split; [|done].
      apply anonymize_try_returns in Htry
        as [[_ ->]|[[_ (data & _ & _ & ->)]|[_ (d & text & results & _ & _ & ->)]]];
        simpl; auto.
    + right. split; [done|]. by eexists.
Qed.

(** X15.  A JSON body that is not an object never reaches the analyzer
    engine.  A list is answered 400 unless "text" is one of its elements,
    a string is answered 400 unless "text" occurs in it; with "text" in
    them, and for null, a boolean and a number, the answer is 500 with the
    text of the [TypeError] the body's type gives. *)
Theorem non_object_body :
  ∀ (config : pyval)
    (analyzer_analyze :
       pyval → pyval → pyval → pyval → pyval → outcome (list RecognizerResult))
    (anonymizer_anonymize :
       pyval → list RecognizerResult → gmap string OperatorConfig →
       outcome EngineResult)
    (str_float : float → string) (data : pyval) (l : log),
    is_dict data = false →
    analyze config analyzer_analyze str_float (Examples.json data) l
      = match data with
        | PyList elements =>
            if existsb (is_str "text") elements
            then failed "Analysis failed: "
                   (TypeError "list indices must be integers or slices, not str") l
            else missing_text l
        | PyStr s =>
            if contains s "text"
            then failed "Analysis failed: "
                   (TypeError "string indices must be integers, not 'str'") l
            else missing_text l
        | _ => failed "Analysis failed: " (not_iterable data) l
        end
    ∧ anonymize config analyzer_analyze anonymizer_anonymize (Examples.json data) l
        = match data with
          | PyList elements =>
              if existsb (is_str "text") elements
              then failed "Anonymization failed: "
                     (TypeError "list indices must be integers or slices, not str") l
              else missing_text l
          | PyStr s =>
              if contains s "text"
              then failed "Anonymization failed: "
                     (TypeError "string indices must be integers, not 'str'") l
              else missing_text l
          | _ => failed "Anonymization failed: " (not_iterable data) l
          end.
Proof.
  intros config analyzer anonymizer str_float data l Hdata.
  unfold analyze, analyze_try, anonymize, anonymize_try.
  destruct data as [| | | |s|elements|d|cls]; try done; simpl.
  - by destruct (contains s "text").
  - by destruct (existsb (is_str "text") elements).
Qed.

Lemma non_object_body_witness :
  analyze Examples.config Examples.finding_analyzer Examples.str_score
    (Examples.json PyNone) []
  = (error_response
       "Analysis failed: argument of type 'NoneType' is not iterable" 500,
     [(ERROR, "Analysis failed: argument of type 'NoneType' is not iterable")])
  ∧ anonymize Examples.config Examples.finding_analyzer Examples.idle_anonymizer
      (Examples.json (PyList [PyStr "text"])) []
    = (error_response
         "Anonymization failed: list indices must be integers or slices, not str"
         500,
       [(ERROR,
         "Anonymization failed: list indices must be integers or slices, not str")]).
Proof.
  split.
  - exact (proj1 (non_object_body Examples.config Examples.finding_analyzer
                    Examples.idle_anonymizer Examples.str_score PyNone []
                    eq_refl)).
  - exact (proj2 (non_object_body Examples.config Examples.finding_analyzer
                    Examples.idle_anonymizer Examples.str_score
                    (PyList [PyStr "text"]) [] eq_refl)).
Defined.
End HandlerAnswers.

(** ** The entries of the answers and the operators *)

Section EntryProperties.
Import Py App Answers.

(** X16.  The object [/analyze] builds for a result has the keys
    [entity_type], [start], [end] and [score], then [analysis_explanation]
    and [recognition_metadata], each only when the result's value for it is
    true in a condition; the type, the start and the end are the result's,
    and an optional value is passed on unchanged. *)
Theorem result_dict_fields :
  ∀ (str_float : float → string) (result : RecognizerResult),
    (result_dict str_float result).*1
      = ["entity_type"; "start"; "end"; "score"]
          ++ (if truthy (analysis_explanation result)
              then ["analysis_explanation"] else [])
          ++ (if truthy (recognition_metadata result)
              then ["recognition_metadata"] else [])
    ∧ lookup_item "entity_type" (result_dict str_float result)
        = Some (PyStr (entity_type result))
    ∧ lookup_item "start" (result_dict str_float result)
        = Some (PyInt (start result))
    ∧ lookup_item "end" (result_dict str_float result)
        = Some (PyInt (end_ result))
    ∧ lookup_item "analysis_explanation" (result_dict str_float result)
        = (if truthy (analysis_explanation result)
           then Some (analysis_explanation result) else None)
    ∧ lookup_item "recognition_metadata" (result_dict str_float result)
        = (if truthy (recognition_metadata result)
           then Some (recognition_metadata result) else None).
Proof.
  intros str_float result. unfold result_dict.
  destruct (truthy (analysis_explanation result)),
    (truthy (recognition_metadata result)); repeat split.
Qed.

(** X17.  An entry of [anonymizers] that is an object gives an operator
    exactly when its [type] is true in a condition or absent; with a type
    that is false in a condition (an empty string, null, zero) the
    constructor of the operator raises.  The name of the operator is the
    entry's [type], whatever that is, or "replace" when the entry has none.
    Its parameters are [new_value] for replace, [masking_char],
    [chars_to_mask] and [from_end] for mask, and none for any other name; a
    parameter has the entry's value where the entry has one, and no other
    key of the entry is passed on. *)
Theorem request_operator_params :
  ∀ (entity_type : string) (c : items),
    (truthy (default (PyStr "replace") (lookup_item "type" c)) = false →
     request_operator entity_type (PyDict c) = Raise InvalidParamError)
    ∧ (truthy (default (PyStr "replace") (lookup_item "type" c)) = true →
       ∃ op,
         request_operator entity_type (PyDict c) = Return op
         ∧ operator_name op = default (PyStr "replace") (lookup_item "type" c)
         ∧ (params op).*1
             = (if is_str "replace" (operator_name op) then ["new_value"]
                else if is_str "mask" (operator_name op)
                     then ["masking_char"; "chars_to_mask"; "from_end"]
                     else [])
         ∧ Forall (λ key,
                     lookup_item key (params op)
                       = Some (default
                                 (if String.eqb key "new_value"
                                  then PyStr ("<" +:+ entity_type +:+ ">")
                                  else if String.eqb key "masking_char"
                                       then PyStr "*"
                                       else if String.eqb key "chars_to_mask"
                                            then PyInt 4
                                            else PyBool true)
                                 (lookup_item key c)))
             (params op).*1).
Proof.
  intros entity_type c. split; [apply request_operator_refuses|].
  intros Htype. unfold request_operator, new_operator_config. simpl.
  rewrite Htype.
  destruct (is_str "replace" (default (PyStr "replace") (lookup_item "type" c)))
    eqn:Hreplace; simpl.
  - eexists. split; [reflexivity|]. simpl. rewrite Hreplace.
    split; [done|]. split; [done|]. by repeat constructor.
  - destruct (is_str "mask" (default (PyStr "replace") (lookup_item "type" c)))
      eqn:Hmask; simpl.
    + eexists. split; [reflexivity|]. simpl. rewrite Hreplace, Hmask.
      split; [done|]. split; [done|]. by repeat constructor.
    + eexists. split; [reflexivity|]. simpl. rewrite Hreplace, Hmask.
      split; [done|]. split; [done|]. constructor.
Qed.

Lemma request_operator_params_witness :
  request_operator "PERSON" (PyDict [("type", PyStr "")]) = Raise InvalidParamError
  ∧ ∃ op,
      request_operator "PERSON"
        (PyDict [("type", PyStr "mask"); ("chars_to_mask", PyInt 2);
                 ("hash_type", PyStr "sha256")]) = Return op
      ∧ (params op).*1 = ["masking_char"; "chars_to_mask"; "from_end"]
      ∧ lookup_item "chars_to_mask" (params op) = Some (PyInt 2).
Proof.
  split.
  - exact (proj1 (request_operator_params "PERSON" [("type", PyStr "")]) eq_refl).
  - destruct (proj2 (request_operator_params "PERSON"
                       [("type", PyStr "mask"); ("chars_to_mask", PyInt 2);
                        ("hash_type", PyStr "sha256")]) eq_refl)
      as (op & Hop & Hname & Hkeys & Hvalues).
    exists op. split; [exact Hop|]. rewrite Hname in Hkeys.
    split; [exact Hkeys|].
    rewrite Hkeys in Hvalues.
    apply Forall_cons in Hvalues as [_ Hvalues].
    apply Forall_cons in Hvalues as [Hvalue _]. exact Hvalue.
Defined.
End EntryProperties.

(** ** Operators that cannot be set up *)

Section OperatorFailures.
Import Py App Answers.

(** An entry that is no object has no [get]. *)
Lemma request_operator_no_object entity_type v :
  is_dict v = false →
  request_operator entity_type v = Raise (no_attribute v "get").
Proof. intros Hv. by destruct v. Qed.

(** The loop over the request's entries stops at the first entry from
    which no operator is built. *)
Lemma request_operators_stops before key v after operators e :
  Forall (λ entry : string * pyval, operator_entry entry.2) before →
  request_operator key v = Raise e →
  request_operators (before ++ (key, v) :: after) operators = Raise e.
Proof.
  intros Hbefore Hv. revert operators.
  induction Hbefore as [|[k config] before (c & Hc & Htype) _ IH];
    intros operators; simpl.
  - by rewrite Hv.
  - simpl in Hc. subst config.
    destruct (request_operator_returns k c Htype) as [op ->]. simpl. apply IH.
Qed.

(** X18.  A request's [anonymizers] that is true in a condition but is no
    object (a non-empty list or string, a number, true) makes the set-up
    of the operators raise the [AttributeError] of [items].  In an object,
    the first entry from which no operator is built ends the set-up: an
    entry that is no object with the [AttributeError] of [get], an object
    whose type is false in a condition with the error of the operator's
    constructor.  When the set-up raises after the analyzer engine has
    returned, [/anonymize] answers 500 with the text of the exception, and
    the anonymizer engine is not called. *)
Theorem malformed_anonymizers :
  ∀ (config : pyval),
    (∀ anonymizers,
       truthy anonymizers = true → is_dict anonymizers = false →
       setup_operators config anonymizers
         = Raise (no_attribute anonymizers "items"))
    ∧ (∀ before key v after,
         Forall (λ entry : string * pyval, operator_entry entry.2) before →
         is_dict v = false →
         setup_operators config (PyDict (before ++ (key, v) :: after))
           = Raise (no_attribute v "get"))
    ∧ (∀ before key c after,
         Forall (λ entry : string * pyval, operator_entry entry.2) before →
         truthy (default (PyStr "replace") (lookup_item "type" c)) = false →
         setup_operators config (PyDict (before ++ (key, PyDict c) :: after))
           = Raise InvalidParamError)
    ∧ (∀ (analyzer_analyze :
            pyval → pyval → pyval → pyval → pyval → outcome (list RecognizerResult))
         (anonymizer_anonymize anonymizer_anonymize' :
            pyval → list RecognizerResult → gmap string OperatorConfig →
            outcome EngineResult)
         (d : items) (text to_detect : pyval) (results : list RecognizerResult)
         (e : exn) (l : log),
         lookup_item "text" d = Some text →
         entities_to_detect config anonymize_fallback_entities
           (default PyNone (lookup_item "entities" d)) = Return to_detect →
         analyzer_analyze text to_detect
           (default (PyStr "xx") (lookup_item "language" d))
           (PyBool false) PyNone = Return results →
         setup_operators config (default PyNone (lookup_item "anonymizers" d))
           = Raise e →
         anonymize config analyzer_analyze anonymizer_anonymize
           (Examples.json (PyDict d)) l
           = failed "Anonymization failed: " e l
         ∧ anonymize config analyzer_analyze anonymizer_anonymize'
             (Examples.json (PyDict d)) l
             = failed "Anonymization failed: " e l).
Proof.
  intros config.
  assert (∀ entries, truthy (PyDict entries) = true →
            setup_operators config (PyDict entries) = request_operators entries ∅)
    as Hloop.
  { intros entries Htrue. unfold setup_operators. by rewrite Htrue. }
  split; [|split; [|split]].
  - intros anonymizers Htrue Hdict. unfold setup_operators. rewrite Htrue.
    by destruct anonymizers.
  - intros before key v after Hbefore Hv.
    rewrite Hloop by (by destruct before).
    apply request_operators_stops; [done|]. by apply request_operator_no_object.
  - intros before key c after Hbefore Htype.
    rewrite Hloop by (by destruct before).
    apply request_operators_stops; [done|]. by apply request_operator_refuses.
  - intros analyzer anonymizer anonymizer' d text to_detect results e l
      Htext Hent Hresults Hsetup.
    unfold anonymize, Examples.json.
    rewrite !(anonymize_try_object config analyzer _ d text to_detect Htext Hent).
    rewrite Hresults. simpl. by rewrite Hsetup.
Qed.

Lemma malformed_anonymizers_witness :
  setup_operators Examples.config (PyList [PyStr "PERSON"])
    = Raise (AttributeError "'list' object has no attribute 'items'")
  ∧ setup_operators Examples.config
      (PyDict [("PERSON", PyDict [("type", PyStr "redact")]);
               ("LOCATION", PyStr "redact")])
    = Raise (AttributeError "'str' object has no attribute 'get'")
  ∧ setup_operators Examples.config
      (PyDict [("PERSON", PyDict [("type", PyStr "")]);
               ("LOCATION", PyStr "redact")])
    = Raise InvalidParamError
  ∧ anonymize Examples.config Examples.finding_analyzer Examples.idle_anonymizer
      (Examples.json (PyDict [("text", PyStr "Jaan Tamm elab Tallinnas.");
                              ("anonymizers", PyStr "redact")])) []
    = (error_response
         "Anonymization failed: 'str' object has no attribute 'items'" 500,
       [(ERROR, "Anonymization failed: 'str' object has no attribute 'items'")]).
Proof.
  split; [|split; [|split]].
  - exact (proj1 (malformed_anonymizers Examples.config)
             (PyList [PyStr "PERSON"]) eq_refl eq_refl).
  - apply (proj1 (proj2 (malformed_anonymizers Examples.config))
             [("PERSON", PyDict [("type", PyStr "redact")])]
             "LOCATION" (PyStr "redact") []).
    + repeat constructor. by eexists.
    + reflexivity.
  - apply (proj1 (proj2 (proj2 (malformed_anonymizers Examples.config)))
             [] "PERSON" [("type", PyStr "")] [("LOCATION", PyStr "redact")]).
    + constructor.
    + reflexivity.
  - exact (proj1 (proj2 (proj2 (proj2 (malformed_anonymizers Examples.config)))
             Examples.finding_analyzer Examples.idle_anonymizer
             Examples.idle_anonymizer
             [("text", PyStr "Jaan Tamm elab Tallinnas.");
              ("anonymizers", PyStr "redact")]
             (PyStr "Jaan Tamm elab Tallinnas.")
             (str_list anonymize_fallback_entities)
             [Examples.person; Examples.location]
             (AttributeError "'str' object has no attribute 'items'") []
             eq_refl eq_refl eq_refl eq_refl)).
Defined.
End OperatorFailures.

(** ** Operators taken from the configuration *)

Section OperatorDefaults.
Import Py App Answers.

(** X19.  [/anonymize] answers a JSON object whose [anonymizers] is false
    in a condition (an empty object or list, an empty string, zero, false,
    null) exactly as it answers the same object without the field.  The
    operators the anonymizer engine is then called with are those built
    from the configuration's default operators, and the answer is the
    handler's answer to what the engines return. *)
Theorem falsy_anonymizers_as_absent :
  ∀ (config : pyval)
    (analyzer_analyze :
       pyval → pyval → pyval → pyval → pyval → outcome (list RecognizerResult))
    (anonymizer_anonymize :
       pyval → list RecognizerResult → gmap string OperatorConfig →
       outcome EngineResult)
    (d : items) (anonymizers : pyval) (l : log),
    truthy anonymizers = false →
    anonymize config analyzer_analyze anonymizer_anonymize
      (Examples.json (PyDict (set_item "anonymizers" anonymizers d))) l
    = anonymize config analyzer_analyze anonymizer_anonymize
        (Examples.json (PyDict (del_item "anonymizers" d))) l
    ∧ (∀ text to_detect,
         lookup_item "text" d = Some text →
         entities_to_detect config anonymize_fallback_entities
           (default PyNone (lookup_item "entities" d)) = Return to_detect →
         anonymize config analyzer_analyze anonymizer_anonymize
           (Examples.json (PyDict (set_item "anonymizers" anonymizers d))) l
         = anonymized anonymizer_anonymize text
             (defaults ← default_anonymizers config;
              entries ← py_items defaults;
              Return (default_operators entries ∅)) l
             (analyzer_analyze text to_detect
                (default (PyStr "xx") (lookup_item "language" d))
                (PyBool false) PyNone)).
Proof.
  intros config analyzer anonymizer d anonymizers l Hfalse. split.
  - unfold anonymize, anonymize_try, Examples.json.
    cbn [is_json get_json negb mbind outcome_bind py_in py_getitem py_get].
    rewrite !(lookup_set_item_ne "anonymizers" "text"),
      !(lookup_set_item_ne "anonymizers" "language"),
      !(lookup_set_item_ne "anonymizers" "entities"),
      !(lookup_del_item_ne "anonymizers" "text"),
      !(lookup_del_item_ne "anonymizers" "language"),
      !(lookup_del_item_ne "anonymizers" "entities") by discriminate.
    rewrite lookup_set_item_eq, lookup_del_item_eq.
    unfold setup_operators. cbn [default from_option id]. rewrite Hfalse. reflexivity.
  - intros text to_detect Htext Hent.
    rewrite <- (lookup_set_item_ne "anonymizers" "text" anonymizers d) in Htext
      by discriminate.
    rewrite <- (lookup_set_item_ne "anonymizers" "entities" anonymizers d) in Hent
      by discriminate.
    rewrite (anonymize_object config analyzer anonymizer _ text to_detect l
               Htext Hent).
    rewrite (lookup_set_item_ne "anonymizers" "language") by discriminate.
    rewrite lookup_set_item_eq. unfold setup_operators.
    cbn [default from_option id]. by rewrite Hfalse.
Qed.

Lemma falsy_anonymizers_as_absent_witness :
  anonymize Examples.config Examples.finding_analyzer Examples.replacing_anonymizer
    (Examples.json (PyDict [("text", PyStr "Jaan Tamm elab Tallinnas.");
                            ("anonymizers", PyDict [])])) []
  = anonymize Examples.config Examples.finding_analyzer Examples.replacing_anonymizer
      (Examples.json (PyDict [("text", PyStr "Jaan Tamm elab Tallinnas.")])) []
  ∧ Spec.field "text"
      <$> Spec.entries "items"
            (anonymize Examples.config Examples.finding_analyzer
               Examples.replacing_anonymizer
               (Examples.json (PyDict [("text", PyStr "Jaan Tamm elab Tallinnas.");
                                       ("anonymizers", PyDict [])])) []).1
      = [Some (PyStr "[ISIK]"); Some (PyStr "[ASUKOHT]")].
Proof.
  pose proof (falsy_anonymizers_as_absent Examples.config Examples.finding_analyzer
                Examples.replacing_anonymizer
                [("text", PyStr "Jaan Tamm elab Tallinnas.");
                 ("anonymizers", PyList [PyStr "x"])]
                (PyDict []) [] eq_refl) as [Hsame Hengine].
  split; [exact Hsame|].
  change (Examples.json (PyDict [("text", PyStr "Jaan Tamm elab Tallinnas.");
                                 ("anonymizers", PyDict [])]))
    with (Examples.json
            (PyDict (set_item "anonymizers" (PyDict [])
                       [("text", PyStr "Jaan Tamm elab Tallinnas.");
                        ("anonymizers", PyList [PyStr "x"])]))).
  rewrite (Hengine (PyStr "Jaan Tamm elab Tallinnas.")
             (str_list anonymize_fallback_entities) eq_refl eq_refl).
  vm_compute. reflexivity.
Defined.

(** X20.  For a request without operators of its own and a configuration
    that is a mapping: without [anonymization_config], or without
    [default_operators] in it, no operator is set up and the anonymizer
    engine is left to its own default; an [anonymization_config] that is no
    mapping (a section left empty is null) raises the [AttributeError] of
    [get], and a [default_operators] that is no mapping raises that of
    [items]. *)
Theorem configured_operators_cases :
  ∀ (d : items) (anonymizers : pyval),
    truthy anonymizers = false →
    (lookup_item "anonymization_config" d = None →
     setup_operators (PyDict d) anonymizers = Return ∅)
    ∧ (∀ section,
         lookup_item "anonymization_config" d = Some (PyDict section) →
         lookup_item "default_operators" section = None →
         setup_operators (PyDict d) anonymizers = Return ∅)
    ∧ (∀ v,
         lookup_item "anonymization_config" d = Some v → is_dict v = false →
         setup_operators (PyDict d) anonymizers = Raise (no_attribute v "get"))
    ∧ (∀ section v,
         lookup_item "anonymization_config" d = Some (PyDict section) →
         lookup_item "default_operators" section = Some v → is_dict v = false →
         setup_operators (PyDict d) anonymizers = Raise (no_attribute v "items")).
Proof.
  intros d anonymizers Hfalse. unfold setup_operators, default_anonymizers.
  rewrite Hfalse. simpl. repeat split.
  - by intros ->.
  - intros section -> Hnone. simpl. by rewrite Hnone.
  - intros v -> Hv. simpl. by destruct v.
  - intros section v -> Hsome Hv. simpl. rewrite Hsome. simpl. by destruct v.
Qed.

Lemma configured_operators_cases_witness :
  setup_operators Examples.bare_config PyNone = Return ∅
  ∧ setup_operators
      (PyDict [("supported_languages", PyList [PyStr "xx"]);
               ("anonymization_config", PyNone)]) (PyDict [])
    = Raise (AttributeError "'NoneType' object has no attribute 'get'").
Proof.
  split.
  - apply (proj1 (configured_operators_cases
                    [("supported_languages", PyList [PyStr "xx"]);
                     ("nlp_configuration",
                      PyDict [("nlp_engine_name", PyStr "stanza")]);
                     ("estbert_configuration",
                      PyDict [("model_name", PyStr "tartuNLP/EstBERT_NER")])]
                    PyNone eq_refl)).
    reflexivity.
  - apply (proj1 (proj2 (proj2 (configured_operators_cases
                    [("supported_languages", PyList [PyStr "xx"]);
                     ("anonymization_config", PyNone)]
                    (PyDict []) eq_refl))) PyNone); reflexivity.
Defined.
End OperatorDefaults.
